(** * gdshelpers.parts.spiral: Archimedean spiral delay lines

    A shallow embedding of [gdshelpers/parts/spiral.py].

    Numbers.  The Python module computes with numpy [float64] values.  They
    are read here as exact real numbers: [np.sqrt], [np.log], [np.sin],
    [np.cos], [np.square] and [np.pi] become [sqrt], [ln], [sin], [cos],
    [Rsqr] and [PI] of the Standard Library's reals.  Rounding, overflow and
    NaN are outside this reading; every statement below is about the closed
    forms the code evaluates.

    Dynamic typing.  [output_type] and [winding_direction] are untyped Python
    values (a string, a number, ...).  They are read as values of [pyval];
    the two places where the code adds such a value to a float are the only
    places where the module can raise, and they raise Python's [TypeError]. *)

From Stdlib Require Import Reals Lra Lia ZArith List String Bool.
Import ListNotations.
Local Open Scope R_scope.

(** ** Arc length of one spiral arm *)

Module ArcLength.

(** [_arc_length_indefinite_integral(theta, a, b)], lines 6-16. *)
Definition _arc_length_indefinite_integral (theta a b : R) : R :=
  sqrt (Rsqr (a + b * theta) + Rsqr b) * (a + b * theta) / (2 * b) +
  0.5 * b * ln (sqrt (Rsqr (a + b * theta) + Rsqr b) + a + b * theta).

(** [_arc_length_integral(theta, a, b)], lines 18-19. *)
Definition _arc_length_integral (theta a b : R) : R :=
  _arc_length_indefinite_integral theta a b -
  _arc_length_indefinite_integral 0 a b.

End ArcLength.
Export ArcLength.

(** ** Total length per output variant *)

Module SpiralLength.

(** [_spiral_length_angle(theta, a, b, out_angle)], lines 21-24. *)
Definition _spiral_length_angle (theta a b out_angle : R) : R :=
  _arc_length_integral theta a b +
  PI * a +
  _arc_length_integral (theta + out_angle) a b.

(** [_spiral_length_inline(theta, a, b)], lines 26-29. *)
Definition _spiral_length_inline (theta a b : R) : R :=
  _spiral_length_angle theta a b (0.5 * PI) +
  0.5 * PI * (0.5 * a) +
  ((a + b * theta) - (0.5 * a)).

(** [_spiral_length_inline_rel(theta, a, b)], lines 31-33. *)
Definition _spiral_length_inline_rel (theta a b : R) : R :=
  _spiral_length_inline theta a b -
  (a + b * (theta + 0.5 * PI) + (0.5 * a)).

End SpiralLength.
Export SpiralLength.

(** ** Python values and exceptions *)

Module Py.

(** The values a caller can pass where the module expects an output type or
    a winding direction. *)
Inductive pyval : Type :=
| PyNone
| PyBool (b : bool)
| PyInt (z : Z)
| PyFloat (x : R)
| PyStr (s : string).

(** [TypeError] and [AttributeError] are the exceptions Python raises for
    an operand of the wrong type and for an attribute of [None].
    [InvalidParameterError] and [ConvergenceError] are the error kinds the
    specification names; the module defines and raises neither. *)
Inductive pyexc : Type :=
| TypeError
| AttributeError
| InvalidParameterError
| ConvergenceError.

Inductive result (A : Type) : Type :=
| Ok (a : A)
| Raise (e : pyexc).
Arguments Ok {A} a.
Arguments Raise {A} e.

Definition bind {A B : Type} (m : result A) (k : A -> result B) : result B :=
  match m with
  | Ok a => k a
  | Raise e => Raise e
  end.

(** [v == s] for a string literal [s]: a value that is not a string is
    different from every string. *)
Definition eq_str (v : pyval) (s : string) : bool :=
  match v with
  | PyStr s' => String.eqb s' s
  | _ => false
  end.

(** A value read as a float operand: numbers, and booleans, which Python
    counts as the integers 0 and 1; nothing else is a number. *)
Definition as_float (v : pyval) : result R :=
  match v with
  | PyFloat y => Ok y
  | PyInt z => Ok (IZR z)
  | PyBool b => Ok (if b then 1 else 0)
  | PyNone => Raise TypeError
  | PyStr _ => Raise TypeError
  end.

(** [x + v] for a float [x]: a [TypeError] unless [v] is a number. *)
Definition float_add (x : R) (v : pyval) : result R :=
  bind (as_float v) (fun y => Ok (x + y)).

(** A keyword argument with a default value. *)
Definition arg {A : Type} (default : A) (given : option A) : A :=
  match given with
  | Some a => a
  | None => default
  end.

(** Truth value of an attribute that holds [None] or an object of a class
    without [__bool__] and [__len__]: only [None] is false. *)
Definition truthy {A : Type} (o : option A) : bool :=
  match o with
  | Some _ => true
  | None => false
  end.

End Py.
Export Py.

Notation "x <- m ;; k" := (bind m (fun x => k))
  (at level 61, m at next level, right associativity).

(** ** Points of the plane, as numpy arrays of shape (2,) *)

Module Vec.

Definition vec : Type := (R * R)%type.

Definition vadd (u v : vec) : vec := (fst u + fst v, snd u + snd v).
Definition vsub (u v : vec) : vec := (fst u - fst v, snd u - snd v).
Definition vneg (u : vec) : vec := (- fst u, - snd u).
Definition vscale (k : R) (u : vec) : vec := (k * fst u, k * snd u).

End Vec.
Export Vec.

(** ** Parametric path of one arm *)

Module PathSampler.

(** [_spiral_out_path(t, a, b, max_theta, min_theta, theta_offset, direction)],
    lines 47-50, at one sample [t].  The code is called with an array of
    samples and returns one column per sample; this is that column. *)
Definition _spiral_out_path
  (t a b max_theta min_theta theta_offset direction : R) : vec :=
  let theta := min_theta + t * (max_theta - min_theta) in
  let r := a + b * theta in
  vadd (vscale r (sin (theta + theta_offset),
                  - direction * cos (theta + theta_offset)))
       (0, direction * a).

(** [_d_spiral_out_path(t, a, b, max_theta, min_theta, theta_offset, direction)],
    lines 52-55. *)
Definition _d_spiral_out_path
  (t a b max_theta min_theta theta_offset direction : R) : vec :=
  let theta := min_theta + t * (max_theta - min_theta) in
  let r := a + b * theta in
  vscale r (cos (theta + theta_offset), direction * sin (theta + theta_offset)).

End PathSampler.
Export PathSampler.

(** ** The layout toolkit the module drives *)

Module Port.

(** Modelled from the spec: the class [Port] is defined in
    [gdshelpers.parts.port], not in this module.  Section 6 describes it as
    the triple of an origin point, an angle and a width. *)
Record t : Type := mk {
  origin : vec;
  angle : R;
  width : R
}.

End Port.

Module Waveguide.

(** Modelled from the spec: the class [Waveguide] is defined in
    [gdshelpers.parts.waveguide], not in this module.  Section 6 describes
    it as a builder that accepts, in order,
    [add_straight_segment(length)], [add_bend(angle, radius)] and
    [add_parameterized_path(path, path_derivative, sample_distance,
    sample_points, path_function_supports_numpy)].  A waveguide is recorded
    as the port it starts at and the operations it has received. *)
Inductive segment : Type :=
| StraightSegment (length : R)
| Bend (angle radius : R)
| ParameterizedPath (path path_derivative : R -> vec)
    (sample_distance : R) (sample_points : Z)
    (path_function_supports_numpy : bool).

(** Modelled from the spec: a waveguide, as the port it was made at and the
    operations appended since, oldest first. *)
Record t : Type := mk {
  start_port : Port.t;
  segments : list segment
}.

(** Modelled from the spec: [Waveguide.make_at_port(port)], a waveguide at
    [port] with no segment yet. *)
Definition make_at_port (port : Port.t) : t :=
  {| start_port := port; segments := [] |}.

(** Modelled from the spec: each operation appends to the path. *)
Definition add (w : t) (s : segment) : t :=
  {| start_port := start_port w; segments := segments w ++ [s] |}.

(** Modelled from the spec: [add_straight_segment(length)]. *)
Definition add_straight_segment (length : R) (w : t) : t :=
  add w (StraightSegment length).

(** Modelled from the spec: [add_bend(angle, radius)]. *)
Definition add_bend (angle radius : R) (w : t) : t :=
  add w (Bend angle radius).

(** Modelled from the spec: [add_parameterized_path(path, sample_distance,
    sample_points, path_derivative, path_function_supports_numpy)]. *)
Definition add_parameterized_path (path : R -> vec) (sample_distance : R)
  (sample_points : Z) (path_derivative : R -> vec)
  (path_function_supports_numpy : bool) (w : t) : t :=
  add w (ParameterizedPath path path_derivative sample_distance sample_points
           path_function_supports_numpy).

End Waveguide.

(** ** Objects in memory

    A [Spiral] holds a reference to the [Waveguide] it builds, and hands the
    same reference to its callers.  Waveguides therefore live in a store and
    are named by their location. *)

Module Store.

Definition loc : Type := nat.
Definition t : Type := list Waveguide.t.

Definition alloc (h : t) (w : Waveguide.t) : loc * t :=
  (List.length h, h ++ [w]).

Definition get (h : t) (l : loc) : option Waveguide.t := nth_error h l.

(** In-place change of the object at [l]. *)
Fixpoint modify (h : t) (l : loc) (f : Waveguide.t -> Waveguide.t) : t :=
  match h, l with
  | [], _ => []
  | w :: h', O => f w :: h'
  | w :: h', S l' => w :: modify h' l' f
  end.

End Store.

(** ** Length to angle *)

Module ThetaSolver.

Section WithRootFinder.

(** [scipy.optimize.fsolve(func, x0)]: the root finder is outside the module
    and is left unspecified.  It returns a number for every function and
    seed; when it does not converge it warns and returns its last iterate. *)
Variable fsolve : (R -> R) -> R -> R.

(** [_spiral_theta(length, wg_width, gap, min_bend_radius, length_function,
    *args)], lines 35-45.  [length_function] is the function of [theta], [a]
    and [b] that remains once [*args] are supplied. *)
Definition _spiral_theta (length wg_width gap min_bend_radius : R)
  (length_function : R -> R -> R -> R) : R :=
  let a := 2 * min_bend_radius in
  let b := 2 * (wg_width + gap) / (2 * PI) in
  fsolve (fun x => length_function x a b - length) (20 * PI).

End WithRootFinder.

End ThetaSolver.
Export ThetaSolver.

(** ** The class [Spiral] *)

Module Spiral.

(** The attributes [__init__] sets, lines 95-112. *)
Record t : Type := mk {
  _origin_port : Port.t;
  gap : R;
  min_bend_radius : R;
  total_theta : R;
  _wg : option Store.loc;
  sample_points : Z;
  sample_distance : R;
  output_type : pyval;
  winding_direction : Z;
  out_theta : R
}.

Definition set__wg (self : t) (w : option Store.loc) : t :=
  {| _origin_port := _origin_port self;
     gap := gap self;
     min_bend_radius := min_bend_radius self;
     total_theta := total_theta self;
     _wg := w;
     sample_points := sample_points self;
     sample_distance := sample_distance self;
     output_type := output_type self;
     winding_direction := winding_direction self;
     out_theta := out_theta self |}.

(** Keyword arguments and their defaults, line 83. *)
Record kwargs : Type := mk_kwargs {
  kw_output_type : option pyval;
  kw_winding_direction : option pyval;
  kw_sample_distance : option R;
  kw_sample_points : option Z
}.

Definition default_output_type : pyval := PyStr "opposite".
Definition default_winding_direction : pyval := PyStr "right".
Definition default_sample_distance : R := 0.50.
Definition default_sample_points : Z := 100%Z.

(** [Spiral.__init__], lines 83-112. *)
Definition __init__ (origin : vec) (angle width gap min_bend_radius theta : R)
  (output_type winding_direction : pyval)
  (sample_distance : R) (sample_points : Z) : result t :=
  let winding_direction :=
    if eq_str winding_direction "left" then (-1)%Z else 1%Z in
  out_theta <-
    (if eq_str output_type "inline" || eq_str output_type "inline_rel" then
       Ok (theta + 0.5 * PI)
     else if eq_str output_type "opposite" then
       Ok theta
     else if eq_str output_type "single_inside"
             || eq_str output_type "single_outside" then
       Ok theta
     else
       float_add theta output_type) ;;
  Ok {| _origin_port := Port.mk origin angle width;
        gap := gap;
        min_bend_radius := min_bend_radius;
        total_theta := theta;
        _wg := None;
        sample_points := sample_points;
        sample_distance := sample_distance;
        output_type := output_type;
        winding_direction := winding_direction;
        out_theta := out_theta |}.

(** [Spiral.make_at_port], lines 114-122: origin, angle and width always
    come from the port; the other arguments are those of [__init__]. *)
Definition make_at_port (port : Port.t) (gap min_bend_radius theta : R)
  (kw : kwargs) : result t :=
  __init__ (Port.origin port) (Port.angle port) (Port.width port)
    gap min_bend_radius theta
    (arg default_output_type (kw_output_type kw))
    (arg default_winding_direction (kw_winding_direction kw))
    (arg default_sample_distance (kw_sample_distance kw))
    (arg default_sample_points (kw_sample_points kw)).

(** The property [width], lines 140-142. *)
Definition width (self : t) : R := Port.width (_origin_port self).

(** The function and extra arguments that [make_at_port_with_length]
    selects, lines 126-135, as the function of [theta], [a] and [b] the
    root finder will call.  In the last branch [output_type] itself becomes
    [out_angle], and [theta + out_angle] at line 24 is evaluated by Python:
    when [output_type] is not a number the first call raises [TypeError],
    whatever [theta] is. *)
Definition length_fn (output_type : pyval) : result (R -> R -> R -> R) :=
  if eq_str output_type "inline" then
    Ok _spiral_length_inline
  else if eq_str output_type "inline_rel" then
    Ok _spiral_length_inline_rel
  else if eq_str output_type "opposite" then
    Ok (fun theta a b => _spiral_length_angle theta a b 0)
  else if eq_str output_type "single_inside"
          || eq_str output_type "single_outside" then
    Ok _arc_length_integral
  else
    out_angle <- as_float output_type ;;
    Ok (fun theta a b => _spiral_length_angle theta a b out_angle).

Section WithRootFinder.

Variable fsolve : (R -> R) -> R -> R.

(** [Spiral.make_at_port_with_length], lines 124-138. *)
Definition make_at_port_with_length (port : Port.t)
  (gap min_bend_radius target_length : R) (kw : kwargs) : result t :=
  let output_type := arg default_output_type (kw_output_type kw) in
  length_fn <- length_fn output_type ;;
  let theta :=
    _spiral_theta fsolve target_length (Port.width port) gap min_bend_radius
      length_fn in
  make_at_port port gap min_bend_radius theta
    {| kw_output_type := Some output_type;
       kw_winding_direction := kw_winding_direction kw;
       kw_sample_distance := kw_sample_distance kw;
       kw_sample_points := kw_sample_points kw |}.

End WithRootFinder.

(** *** The lazily built waveguide *)

(** A running program: the store of waveguides, one [Spiral] instance, and
    a count of the assignments to its attribute [_wg] made after
    [__init__] (bookkeeping only, the code keeps no such counter). *)
Record state : Type := mk_state {
  store : Store.t;
  self : t;
  cache_writes : nat
}.

(** A call on the waveguide [self._wg] refers to. *)
Definition on_wg (f : Waveguide.t -> Waveguide.t) (st : state) : state :=
  match _wg (self st) with
  | Some l =>
      {| store := Store.modify (store st) l f;
         self := self st;
         cache_writes := cache_writes st |}
  | None => st
  end.

(** [Spiral._generate], lines 158-180. *)
Definition _generate (st : state) : state :=
  let this := self st in
  let (l, h) := Store.alloc (store st)
                  (Waveguide.make_at_port (_origin_port this)) in
  let st := {| store := h;
               self := set__wg this (Some l);
               cache_writes := S (cache_writes st) |} in
  let a := 2 * min_bend_radius this in
  let b := 2 * (width this + gap this) / (2 * PI) in
  let outer_r := a + b * total_theta this in
  let dir := IZR (winding_direction this) in
  let st :=
    if negb (eq_str (output_type this) "single_outside") then
      on_wg (Waveguide.add_parameterized_path
               (fun x =>
                  vsub (vneg (_spiral_out_path (1 - x) a b (total_theta this)
                                0 (- total_theta this) dir))
                       (vscale dir (0, - a + outer_r)))
               (sample_distance this) (sample_points this)
               (fun x =>
                  _d_spiral_out_path (1 - x) a b (total_theta this)
                    0 (- total_theta this) dir)
               true) st
    else st in
  let st :=
    if negb (eq_str (output_type this) "single_inside")
       && negb (eq_str (output_type this) "single_outside") then
      on_wg (Waveguide.add_bend (dir * PI) (min_bend_radius this))
        (on_wg (Waveguide.add_bend (- dir * PI) (min_bend_radius this)) st)
    else st in
  let st :=
    if negb (eq_str (output_type this) "single_inside") then
      on_wg (Waveguide.add_parameterized_path
               (fun x => _spiral_out_path x a b (out_theta this) 0 0 dir)
               (sample_distance this) (sample_points this)
               (fun x => _d_spiral_out_path x a b (out_theta this) 0 0 dir)
               true) st
    else st in
  if eq_str (output_type this) "inline"
     || eq_str (output_type this) "inline_rel" then
    on_wg (Waveguide.add_bend (- 0.5 * dir * PI) (min_bend_radius this))
      (on_wg (Waveguide.add_straight_segment
                (outer_r - min_bend_radius this)) st)
  else st.

Section WithRenderer.

(** What the waveguide class computes from the operations it received: its
    attributes [length] and [current_port] and its method
    [get_shapely_object].  They belong to the renderer and are left
    unspecified. *)
Variable shape : Type.
Variable wg_length : Waveguide.t -> R.
Variable wg_current_port : Waveguide.t -> Port.t.
Variable wg_get_shapely_object : Waveguide.t -> shape.

(** [self._wg.attr]: an attribute of [None] is an [AttributeError]. *)
Definition getattr {A : Type} (attr : Waveguide.t -> A)
  (h : Store.t) (r : option Store.loc) : result A :=
  match r with
  | Some l =>
      match Store.get h l with
      | Some w => Ok (attr w)
      | None => Raise AttributeError
      end
  | None => Raise AttributeError
  end.

(** The property [wg], lines 144-148. *)
Definition wg (st : state) : option Store.loc * state :=
  let st := if negb (truthy (_wg (self st))) then _generate st else st in
  (_wg (self st), st).

(** The property [length], lines 150-152. *)
Definition length (st : state) : result R * state :=
  let (r, st) := wg st in
  (getattr wg_length (store st) r, st).

(** The property [out_port], lines 154-156. *)
Definition out_port (st : state) : result Port.t * state :=
  let (r, st) := wg st in
  (getattr wg_current_port (store st) r, st).

(** [Spiral.get_shapely_object], lines 182-183. *)
Definition get_shapely_object (st : state) : result shape * state :=
  let (r, st) := wg st in
  (getattr wg_get_shapely_object (store st) r, st).

(** The accessors, and a caller that uses them one after the other. *)
Inductive accessor : Type :=
| Awg
| Alength
| Aout_port
| Aget_shapely_object.

Inductive retval : Type :=
| Rwg (r : option Store.loc)
| Rlength (x : result R)
| Rout_port (p : result Port.t)
| Rget_shapely_object (s : result shape).

Definition access (acc : accessor) (st : state) : retval * state :=
  match acc with
  | Awg => let (r, st) := wg st in (Rwg r, st)
  | Alength => let (x, st) := length st in (Rlength x, st)
  | Aout_port => let (p, st) := out_port st in (Rout_port p, st)
  | Aget_shapely_object =>
      let (s, st) := get_shapely_object st in (Rget_shapely_object s, st)
  end.

Fixpoint run (calls : list accessor) (st : state) : list retval * state :=
  match calls with
  | [] => ([], st)
  | acc :: calls =>
      let (v, st) := access acc st in
      let (vs, st) := run calls st in
      (v :: vs, st)
  end.

(** What an accessor returns when it only reads the waveguide [w] that
    [self._wg] refers to at [l]. *)
Definition cached_value (l : Store.loc) (w : Waveguide.t)
  (acc : accessor) : retval :=
  match acc with
  | Awg => Rwg (Some l)
  | Alength => Rlength (Ok (wg_length w))
  | Aout_port => Rout_port (Ok (wg_current_port w))
  | Aget_shapely_object => Rget_shapely_object (Ok (wg_get_shapely_object w))
  end.

(** A caller that changes the waveguide it was handed, as line 196 does
    with [spiral.wg.add_straight_segment(30)]. *)
Definition wg_then (f : Waveguide.t -> Waveguide.t) (st : state) : state :=
  let (_, st) := wg st in on_wg f st.

End WithRenderer.

(** [st'] is [st] after one more waveguide [w] was allocated, [_wg] was set
    to it once, and nothing else changed. *)
Definition built_from (st st' : state) (w : Waveguide.t) : Prop :=
  store st' = store st ++ [w] /\
  self st' = set__wg (self st) (Some (List.length (store st))) /\
  cache_writes st' = S (cache_writes st).

(** The program state right after [__init__] returned [this], with [h] the
    waveguides that exist already. *)
Definition fresh (h : Store.t) (this : t) : state :=
  {| store := h; self := this; cache_writes := 0 |}.

End Spiral.

(** ** The specification's vocabulary *)

Module Spec.

(** The closed set of output variants of section 3, and the value of
    [output_type] that selects each of them in the code (docstring of the
    class, lines 62-80). *)
Inductive OutputTopology : Type :=
| Opposite
| Inline
| InlineRelative
| SingleInside
| SingleOutside
| AngleOffset (phi : R).

Definition tag_of (topology : OutputTopology) : pyval :=
  match topology with
  | Opposite => PyStr "opposite"
  | Inline => PyStr "inline"
  | InlineRelative => PyStr "inline_rel"
  | SingleInside => PyStr "single_inside"
  | SingleOutside => PyStr "single_outside"
  | AngleOffset phi => PyFloat phi
  end.

(** A tag is recognized when it selects one of the variants. *)
Definition recognized (tag : pyval) : Prop :=
  exists topology, tag = tag_of topology.

(** The winding angle of the outbound arm, section 4.5 step 3. *)
Definition out_theta (topology : OutputTopology) (theta_total : R) : R :=
  match topology with
  | Opposite | SingleInside | SingleOutside => theta_total
  | Inline | InlineRelative => theta_total + PI / 2
  | AngleOffset phi => theta_total + phi
  end.

(** The tangent of section 4.4, in the specification's words:
    [r(theta) (cos(theta + phi0), dir sin(theta + phi0)) (theta_max - theta_min)]. *)
Definition tangent (t a b theta_max theta_min phi0 dir : R) : vec :=
  let theta := theta_min + t * (theta_max - theta_min) in
  let r := a + b * theta in
  vscale (theta_max - theta_min)
    (vscale r (cos (theta + phi0), dir * sin (theta + phi0))).

(** The five output types the code knows by name. *)
Definition named_tags : list string :=
  ["inline"; "inline_rel"; "opposite"; "single_inside"; "single_outside"]%string.

Definition unnamed (tag : pyval) : Prop :=
  forall s, In s named_tags -> tag <> PyStr s.

(** The direct path of section 4.2 that [InlineRelative] subtracts. *)
Definition direct_path (theta a b : R) : R :=
  a + b * (theta + PI / 2) + a / 2.

End Spec.

(** ** The generated layout, read as a value *)

Module Layout.

(** The parameters of the spiral equation [r = a + b theta] that
    [Spiral._generate] computes, lines 160-161. *)
Definition a (this : Spiral.t) : R := 2 * Spiral.min_bend_radius this.

Definition b (this : Spiral.t) : R :=
  2 * (Spiral.width this + Spiral.gap this) / (2 * PI).

(** The waveguide that [Spiral._generate] leaves behind for [this], lines
    159-180: the object made at line 159 after the calls of lines 165-180
    were applied to it in order. *)
Definition realize (this : Spiral.t) : Waveguide.t :=
  let a := a this in
  let b := b this in
  let outer_r := a + b * Spiral.total_theta this in
  let dir := IZR (Spiral.winding_direction this) in
  let ot := Spiral.output_type this in
  let w := Waveguide.make_at_port (Spiral._origin_port this) in
  let w :=
    if negb (eq_str ot "single_outside") then
      Waveguide.add_parameterized_path
        (fun x =>
           vsub (vneg (_spiral_out_path (1 - x) a b (Spiral.total_theta this)
                         0 (- Spiral.total_theta this) dir))
                (vscale dir (0, - a + outer_r)))
        (Spiral.sample_distance this) (Spiral.sample_points this)
        (fun x =>
           _d_spiral_out_path (1 - x) a b (Spiral.total_theta this)
             0 (- Spiral.total_theta this) dir)
        true w
    else w in
  let w :=
    if negb (eq_str ot "single_inside") && negb (eq_str ot "single_outside")
    then
      Waveguide.add_bend (dir * PI) (Spiral.min_bend_radius this)
        (Waveguide.add_bend (- dir * PI) (Spiral.min_bend_radius this) w)
    else w in
  let w :=
    if negb (eq_str ot "single_inside") then
      Waveguide.add_parameterized_path
        (fun x => _spiral_out_path x a b (Spiral.out_theta this) 0 0 dir)
        (Spiral.sample_distance this) (Spiral.sample_points this)
        (fun x => _d_spiral_out_path x a b (Spiral.out_theta this) 0 0 dir)
        true w
    else w in
  if eq_str ot "inline" || eq_str ot "inline_rel" then
    Waveguide.add_bend (- 0.5 * dir * PI) (Spiral.min_bend_radius this)
      (Waveguide.add_straight_segment
         (outer_r - Spiral.min_bend_radius this) w)
  else w.

(** A segment without its path functions. *)
Inductive kind : Type :=
| Straight (length : R)
| Arc (angle radius : R)
| Arm (sample_distance : R) (sample_points : Z).

Definition kind_of (s : Waveguide.segment) : kind :=
  match s with
  | Waveguide.StraightSegment length => Straight length
  | Waveguide.Bend angle radius => Arc angle radius
  | Waveguide.ParameterizedPath _ _ sample_distance sample_points _ =>
      Arm sample_distance sample_points
  end.



(** Reflection about the axis the path starts along. *)
Definition mirror (p : vec) : vec := (fst p, - snd p).

Definition mirrored (s s' : Waveguide.segment) : Prop :=
  match s, s' with
  | Waveguide.StraightSegment l, Waveguide.StraightSegment l' => l' = l
  | Waveguide.Bend angle radius, Waveguide.Bend angle' radius' =>
      angle' = - angle /\ radius' = radius
  | Waveguide.ParameterizedPath p dp sd sp np,
    Waveguide.ParameterizedPath p' dp' sd' sp' np' =>
      (forall x, p' x = mirror (p x)) /\
      (forall x, dp' x = mirror (dp x)) /\
      sd' = sd /\ sp' = sp /\ np' = np
  | _, _ => False
  end.

End Layout.

(** * Properties *)

(** ** Arc length *)

Lemma _arc_length_integral_0 (a b : R) : _arc_length_integral 0 a b = 0.
Proof. unfold _arc_length_integral. apply Rminus_diag. Qed.

(** C6: for all [a > 0] and [b > 0] the definite arc length at [theta = 0]
    is exactly zero. *)
Theorem C6_arc_length_at_zero (a b : R) :
  0 < a -> 0 < b -> _arc_length_integral 0 a b = 0.
Proof. intros _ _. apply _arc_length_integral_0. Qed.

Lemma C6_arc_length_at_zero_witness : _arc_length_integral 0 70 2 = 0.
Proof. apply (C6_arc_length_at_zero 70 2); lra. Defined.

(** ** Length per variant *)

(** C1: the length of the Opposite variant with angular offset [delta] is
    the inbound arm, plus [PI * a] for the two semicircles, plus the outbound
    arm wound by [theta + delta]; the tag "opposite" selects it with
    [delta = 0] and a numeric tag [phi] selects it with [delta = phi]. *)
Theorem C1_spiral_length_angle :
  (forall theta a b delta : R,
      _spiral_length_angle theta a b delta =
      _arc_length_integral theta a b + PI * a +
      _arc_length_integral (theta + delta) a b) /\
  Spiral.length_fn (Spec.tag_of Spec.Opposite) =
    Ok (fun theta a b => _spiral_length_angle theta a b 0) /\
  (forall phi : R,
      Spiral.length_fn (Spec.tag_of (Spec.AngleOffset phi)) =
      Ok (fun theta a b => _spiral_length_angle theta a b phi)).
Proof.
  split; [|split].
  - intros theta a b delta. reflexivity.
  - reflexivity.
  - intros phi. reflexivity.
Qed.

Lemma direct_path_pos (theta a b : R) :
  0 < a -> 0 < b -> 0 <= theta -> 0 < Spec.direct_path theta a b.
Proof.
  intros Ha Hb Hth. unfold Spec.direct_path.
  assert (Hpi := PI_RGT_0).
  assert (0 <= b * (theta + PI / 2)) by (apply Rmult_le_pos; lra).
  lra.
Qed.

(** C5: the InlineRelative length is the Inline length at the same angle
    minus the direct path [a + b (theta + PI/2) + a/2]; so the two differ by
    exactly that amount, and InlineRelative is the shorter one for positive
    [a], [b] and non-negative [theta]. *)
Theorem C5_inline_rel_vs_inline (theta a b : R) :
  _spiral_length_inline_rel theta a b =
    _spiral_length_inline theta a b - Spec.direct_path theta a b /\
  _spiral_length_inline theta a b - _spiral_length_inline_rel theta a b =
    a + b * (theta + PI / 2) + a / 2 /\
  (0 < a -> 0 < b -> 0 <= theta ->
   _spiral_length_inline_rel theta a b < _spiral_length_inline theta a b).
Proof.
  assert (E : _spiral_length_inline_rel theta a b =
              _spiral_length_inline theta a b - Spec.direct_path theta a b).
  { unfold _spiral_length_inline_rel, Spec.direct_path. lra. }
  split; [exact E|split].
  - rewrite E. unfold Spec.direct_path. lra.
  - intros Ha Hb Hth. rewrite E.
    assert (Hp := direct_path_pos theta a b Ha Hb Hth). lra.
Qed.

Lemma C5_inline_rel_vs_inline_witness :
  _spiral_length_inline_rel 10 70 2 < _spiral_length_inline 10 70 2.
Proof. apply (C5_inline_rel_vs_inline 10 70 2); lra. Defined.

(** ** Construction from an angle *)

Lemma eq_str_false (v : pyval) (s : string) :
  v <> PyStr s -> eq_str v s = false.
Proof.
  intros Hne. destruct v as [| |z|x|s']; try reflexivity.
  simpl. apply String.eqb_neq. intros ->. now apply Hne.
Qed.

Lemma __init___recognized (origin : vec) (angle width gap mbr theta : R)
  (topology : Spec.OutputTopology) (wd : pyval) (sd : R) (sp : Z) :
  exists s,
    Spiral.__init__ origin angle width gap mbr theta
      (Spec.tag_of topology) wd sd sp = Ok s /\
    Spiral.out_theta s =
      match topology with
      | Spec.Inline | Spec.InlineRelative => theta + 0.5 * PI
      | Spec.AngleOffset phi => theta + phi
      | _ => theta
      end /\
    Spiral.total_theta s = theta /\
    Spiral._wg s = None.
Proof.
  destruct topology; eexists; (split; [reflexivity|]); simpl; auto.
Qed.

(** C8: the winding angle of the outbound arm is [theta_total] for Opposite,
    SingleInside and SingleOutside, [theta_total + PI/2] for Inline and
    InlineRelative, and [theta_total + phi] for AngleOffset [phi]. *)
Theorem C8_out_theta_by_topology (origin : vec)
  (angle width gap mbr theta : R) (topology : Spec.OutputTopology)
  (wd : pyval) (sd : R) (sp : Z) :
  exists s,
    Spiral.__init__ origin angle width gap mbr theta
      (Spec.tag_of topology) wd sd sp = Ok s /\
    Spiral.total_theta s = theta /\
    Spiral.out_theta s = Spec.out_theta topology (Spiral.total_theta s).
Proof.
  destruct (__init___recognized origin angle width gap mbr theta
              topology wd sd sp) as (s & Hs & Hout & Htot & _).
  exists s. split; [exact Hs|]. split; [exact Htot|].
  rewrite Hout, Htot. destruct topology; simpl; lra.
Qed.

(** C10: a [winding_direction] other than the exact string "left" is taken
    as right: the constructor behaves as for "right", stores [+1], and
    raises nothing on its account; the string "left" stores [-1]. *)
Theorem C10_winding_direction_fallback (origin : vec)
  (angle width gap mbr theta : R) (ot wd : pyval) (sd : R) (sp : Z) :
  (wd <> PyStr "left" ->
   Spiral.__init__ origin angle width gap mbr theta ot wd sd sp =
   Spiral.__init__ origin angle width gap mbr theta ot (PyStr "right") sd sp) /\
  (wd <> PyStr "left" ->
   forall s,
     Spiral.__init__ origin angle width gap mbr theta ot wd sd sp = Ok s ->
     Spiral.winding_direction s = 1%Z) /\
  (wd <> PyStr "left" ->
   forall topology, exists s,
     Spiral.__init__ origin angle width gap mbr theta
       (Spec.tag_of topology) wd sd sp = Ok s /\
     Spiral.winding_direction s = 1%Z) /\
  (forall s,
     Spiral.__init__ origin angle width gap mbr theta ot (PyStr "left") sd sp
       = Ok s ->
     Spiral.winding_direction s = (-1)%Z).
Proof.
  assert (Hval : wd <> PyStr "left" ->
                 forall ot' s,
                   Spiral.__init__ origin angle width gap mbr theta ot' wd sd sp
                     = Ok s ->
                   Spiral.winding_direction s = 1%Z).
  { intros Hne ot' s. unfold Spiral.__init__.
    rewrite (eq_str_false _ _ Hne).
    destruct (if _ : bool then _ else _) as [x|e]; simpl; [|discriminate].
    intros [= <-]. reflexivity. }
  repeat split.
  - intros Hne. unfold Spiral.__init__.
    rewrite (eq_str_false _ _ Hne). reflexivity.
  - intros Hne s. apply Hval, Hne.
  - intros Hne topology.
    destruct (__init___recognized origin angle width gap mbr theta
                topology wd sd sp) as (s & Hs & _).
    exists s. split; [exact Hs|]. exact (Hval Hne _ _ Hs).
  - intros s. unfold Spiral.__init__. simpl eq_str.
    destruct (if _ : bool then _ else _) as [x|e]; simpl; [|discriminate].
    intros [= <-]. reflexivity.
Qed.

Lemma C10_winding_direction_fallback_witness :
  exists s,
    Spiral.__init__ (0, 0) 0 1 5 35 10 (PyStr "opposite") (PyStr "Left")
      0.5 100 = Ok s /\
    Spiral.winding_direction s = 1%Z.
Proof.
  refine (proj1 (proj2 (proj2
            (C10_winding_direction_fallback (0, 0) 0 1 5 35 10
               (PyStr "opposite") (PyStr "Left") 0.5 100))) _ Spec.Opposite).
  discriminate.
Defined.

(** ** Derivatives *)

Lemma derivable_pt_lim_eq (f : R -> R) (x d d' : R) :
  d = d' -> derivable_pt_lim f x d' -> derivable_pt_lim f x d.
Proof. intros ->. exact (fun H => H). Qed.

Lemma half_inv : 0.5 = / 2.
Proof. lra. Qed.

Lemma derivable_pt_lim_affine (c k x : R) :
  derivable_pt_lim (fun t => c + k * t) x k.
Proof.
  apply derivable_pt_lim_eq with (d' := 0 + (0 * x + k * 1)); [ring|].
  apply derivable_pt_lim_plus with (f1 := fun _ => c) (f2 := fun t => k * t).
  - apply derivable_pt_lim_const.
  - apply derivable_pt_lim_mult with (f1 := fun _ => k) (f2 := fun t => t);
      [apply derivable_pt_lim_const | apply derivable_pt_lim_id].
Qed.

(** The antiderivative of lines 15-16 differentiates to the arc-length
    element [sqrt (r^2 + (dr/dtheta)^2)] of the spiral [r = a + b theta]. *)
Section Antiderivative.

Variables a b : R.
Hypothesis Hb : b <> 0.

Let u := fun theta => a + b * theta.
Let q := fun theta => Rsqr (u theta) + Rsqr b.
Let s := fun theta => sqrt (q theta).

Lemma q_pos theta : 0 < q theta.
Proof.
  unfold q. assert (0 <= Rsqr (u theta)) by apply Rle_0_sqr.
  assert (0 < Rsqr b) by now apply Rlt_0_sqr.
  lra.
Qed.

Lemma s_pos theta : 0 < s theta.
Proof. apply sqrt_lt_R0, q_pos. Qed.

Lemma s_sqr theta : s theta * s theta = u theta * u theta + b * b.
Proof. unfold s. rewrite sqrt_sqrt; [reflexivity | apply Rlt_le, q_pos]. Qed.

Lemma s_plus_u_pos theta : 0 < s theta + u theta.
Proof.
  assert (H : Rabs (u theta) < s theta).
  { unfold s. rewrite <- sqrt_Rsqr_abs. apply sqrt_lt_1.
    - apply Rle_0_sqr.
    - apply Rlt_le, q_pos.
    - unfold q. assert (0 < Rsqr b) by now apply Rlt_0_sqr. lra. }
  assert (H' := Rle_abs (- u theta)). rewrite Rabs_Ropp in H'. lra.
Qed.

Lemma q_derivative theta : derivable_pt_lim q theta (2 * u theta * b).
Proof.
  apply derivable_pt_lim_eq with (d' := (b * u theta + u theta * b) + 0);
    [ring|].
  apply derivable_pt_lim_plus
    with (f1 := fun t => Rsqr (u t)) (f2 := fun _ => Rsqr b).
  - apply derivable_pt_lim_mult with (f1 := u) (f2 := u);
      apply derivable_pt_lim_affine.
  - apply derivable_pt_lim_const.
Qed.

Lemma s_derivative theta : derivable_pt_lim s theta (u theta * b / s theta).
Proof.
  apply derivable_pt_lim_eq
    with (d' := / (2 * sqrt (q theta)) * (2 * u theta * b)).
  { fold (s theta). field. apply Rgt_not_eq, s_pos. }
  apply derivable_pt_lim_comp with (f1 := q) (f2 := sqrt).
  - apply q_derivative.
  - apply derivable_pt_lim_sqrt, q_pos.
Qed.

Lemma indefinite_integral_derivative theta :
  derivable_pt_lim (fun theta => _arc_length_indefinite_integral theta a b)
    theta (sqrt (Rsqr (a + b * theta) + Rsqr b)).
Proof.
  change (sqrt (Rsqr (a + b * theta) + Rsqr b)) with (s theta).
  assert (Hs := s_pos theta). assert (Hsu := s_plus_u_pos theta).
  assert (Hss := s_sqr theta).
  apply derivable_pt_lim_eq
    with (d' := ((u theta * b / s theta * u theta + s theta * b) * / (2 * b)
                 + s theta * u theta * 0) +
                (0 * ln (s theta + a + b * theta) +
                 0.5 * b * (/ (s theta + a + b * theta) *
                            ((u theta * b / s theta + 0) + b)))).
  { rewrite Rplus_assoc with (r1 := s theta) (r2 := a).
    change (a + b * theta) with (u theta).
    generalize dependent (s theta). generalize (u theta). intros U S HS HSU HSS.
    rewrite half_inv.
    transitivity ((S * S + (U * U + b * b)) / (2 * S)).
    - rewrite <- HSS. field. lra.
    - field. repeat split; lra. }
  unfold _arc_length_indefinite_integral.
  apply derivable_pt_lim_plus
    with (f1 := fun t => s t * u t / (2 * b))
         (f2 := fun t => 0.5 * b * ln (s t + a + b * t)).
  - apply derivable_pt_lim_mult
      with (f1 := fun t => s t * u t) (f2 := fun _ => / (2 * b)).
    + apply derivable_pt_lim_mult with (f1 := s) (f2 := u);
        [apply s_derivative | apply derivable_pt_lim_affine].
    + apply derivable_pt_lim_const.
  - apply derivable_pt_lim_mult
      with (f1 := fun _ => 0.5 * b) (f2 := fun t => ln (s t + a + b * t)).
    + apply derivable_pt_lim_const.
    + apply derivable_pt_lim_comp
        with (f1 := fun t => s t + a + b * t) (f2 := ln).
      * apply derivable_pt_lim_plus
          with (f1 := fun t => s t + a) (f2 := fun t => b * t).
        -- apply derivable_pt_lim_plus with (f1 := s) (f2 := fun _ => a);
             [apply s_derivative | apply derivable_pt_lim_const].
        -- apply derivable_pt_lim_eq with (d' := 0 * theta + b * 1); [ring|].
           apply derivable_pt_lim_mult
             with (f1 := fun _ => b) (f2 := fun t => t);
             [apply derivable_pt_lim_const | apply derivable_pt_lim_id].
      * apply derivable_pt_lim_ln. unfold u in Hsu. lra.
Qed.

Lemma arc_length_derivative theta :
  derivable_pt_lim (fun theta => _arc_length_integral theta a b)
    theta (sqrt (Rsqr (a + b * theta) + Rsqr b)).
Proof.
  apply derivable_pt_lim_eq
    with (d' := sqrt (Rsqr (a + b * theta) + Rsqr b) - 0); [ring|].
  unfold _arc_length_integral.
  apply derivable_pt_lim_minus
    with (f1 := fun t => _arc_length_indefinite_integral t a b)
         (f2 := fun _ => _arc_length_indefinite_integral 0 a b).
  - apply indefinite_integral_derivative.
  - apply derivable_pt_lim_const.
Qed.

Lemma arc_length_element_pos theta :
  0 < sqrt (Rsqr (a + b * theta) + Rsqr b).
Proof. exact (s_pos theta). Qed.

(** Strictly increasing on the whole line, by the mean value theorem. *)
Lemma arc_length_increasing (theta1 theta2 : R) :
  theta1 < theta2 ->
  _arc_length_integral theta1 a b < _arc_length_integral theta2 a b.
Proof.
  intros Hlt.
  destruct (MVT_cor2 (fun theta => _arc_length_integral theta a b)
              (fun theta => sqrt (Rsqr (a + b * theta) + Rsqr b))
              theta1 theta2 Hlt
              (fun c _ => arc_length_derivative c)) as (c & Hc & _).
  assert (Hpos := arc_length_element_pos c).
  assert (0 < sqrt (Rsqr (a + b * c) + Rsqr b) * (theta2 - theta1))
    by (apply Rmult_lt_0_compat; lra).
  lra.
Qed.

Lemma arc_length_continuous :
  continuity (fun theta => _arc_length_integral theta a b).
Proof.
  intros theta. apply derivable_continuous_pt.
  exists (sqrt (Rsqr (a + b * theta) + Rsqr b)).
  apply arc_length_derivative.
Qed.

End Antiderivative.

Section LengthFunctions.

Variables a b : R.
Hypothesis Hb : 0 < b.

Let Hb0 : b <> 0 := Rgt_not_eq _ _ Hb.

Lemma continuity_affine (c k : R) : continuity (fun theta => c + k * theta).
Proof.
  intros theta. apply derivable_continuous_pt.
  exists k. apply derivable_pt_lim_affine.
Qed.

Lemma continuity_shift (delta : R) : continuity (fun theta => theta + delta).
Proof.
  intros theta. apply derivable_continuous_pt.
  exists 1. apply derivable_pt_lim_eq with (d' := 1 + 0); [ring|].
  apply derivable_pt_lim_plus with (f1 := fun t => t) (f2 := fun _ => delta);
    [apply derivable_pt_lim_id | apply derivable_pt_lim_const].
Qed.

Lemma arc_length_shift_continuous (delta : R) :
  continuity (fun theta => _arc_length_integral (theta + delta) a b).
Proof.
  apply continuity_comp
    with (f1 := fun theta => theta + delta)
         (f2 := fun theta => _arc_length_integral theta a b).
  - apply continuity_shift.
  - apply arc_length_continuous, Hb0.
Qed.

Lemma _spiral_length_angle_increasing (delta theta1 theta2 : R) :
  theta1 < theta2 ->
  _spiral_length_angle theta1 a b delta < _spiral_length_angle theta2 a b delta.
Proof.
  intros Hlt. unfold _spiral_length_angle.
  assert (H1 := arc_length_increasing a b Hb0 theta1 theta2 Hlt).
  assert (H2 : theta1 + delta < theta2 + delta) by lra.
  apply (arc_length_increasing a b Hb0) in H2.
  lra.
Qed.

Lemma _spiral_length_angle_continuous (delta : R) :
  continuity (fun theta => _spiral_length_angle theta a b delta).
Proof.
  unfold _spiral_length_angle.
  apply continuity_plus
    with (f1 := fun theta => _arc_length_integral theta a b + PI * a)
         (f2 := fun theta => _arc_length_integral (theta + delta) a b).
  - apply continuity_plus
      with (f1 := fun theta => _arc_length_integral theta a b)
           (f2 := fun _ => PI * a).
    + apply arc_length_continuous, Hb0.
    + apply continuity_const. intros x y. reflexivity.
  - apply arc_length_shift_continuous.
Qed.

Lemma _spiral_length_inline_increasing (theta1 theta2 : R) :
  theta1 < theta2 ->
  _spiral_length_inline theta1 a b < _spiral_length_inline theta2 a b.
Proof.
  intros Hlt. unfold _spiral_length_inline.
  assert (H1 := _spiral_length_angle_increasing (0.5 * PI) _ _ Hlt).
  assert (H2 : b * theta1 < b * theta2) by (apply Rmult_lt_compat_l; lra).
  lra.
Qed.

Lemma _spiral_length_inline_rel_increasing (theta1 theta2 : R) :
  theta1 < theta2 ->
  _spiral_length_inline_rel theta1 a b < _spiral_length_inline_rel theta2 a b.
Proof.
  intros Hlt. unfold _spiral_length_inline_rel, _spiral_length_inline.
  assert (H1 := _spiral_length_angle_increasing (0.5 * PI) _ _ Hlt).
  lra.
Qed.

Lemma _spiral_length_inline_continuous :
  continuity (fun theta => _spiral_length_inline theta a b).
Proof.
  unfold _spiral_length_inline.
  apply continuity_plus
    with (f1 := fun theta => _spiral_length_angle theta a b (0.5 * PI) +
                             0.5 * PI * (0.5 * a))
         (f2 := fun theta => a + b * theta - 0.5 * a).
  - apply continuity_plus
      with (f1 := fun theta => _spiral_length_angle theta a b (0.5 * PI))
           (f2 := fun _ => 0.5 * PI * (0.5 * a)).
    + apply _spiral_length_angle_continuous.
    + apply continuity_const. intros x y. reflexivity.
  - apply continuity_minus
      with (f1 := fun theta => a + b * theta) (f2 := fun _ => 0.5 * a).
    + apply continuity_affine.
    + apply continuity_const. intros x y. reflexivity.
Qed.

Lemma _spiral_length_inline_rel_continuous :
  continuity (fun theta => _spiral_length_inline_rel theta a b).
Proof.
  unfold _spiral_length_inline_rel.
  apply continuity_minus
    with (f1 := fun theta => _spiral_length_inline theta a b)
         (f2 := fun theta => a + b * (theta + 0.5 * PI) + 0.5 * a).
  - apply _spiral_length_inline_continuous.
  - apply continuity_plus
      with (f1 := fun theta => a + b * (theta + 0.5 * PI))
           (f2 := fun _ => 0.5 * a).
    + apply continuity_comp
        with (f1 := fun theta => theta + 0.5 * PI)
             (f2 := fun theta => a + b * theta).
      * apply continuity_shift.
      * apply continuity_affine.
    + apply continuity_const. intros x y. reflexivity.
Qed.

(** Every variant's length function is strictly increasing and continuous
    in [theta]. *)
Lemma length_fn_increasing_continuous (topology : Spec.OutputTopology)
  (L : R -> R -> R -> R) :
  Spiral.length_fn (Spec.tag_of topology) = Ok L ->
  (forall theta1 theta2, theta1 < theta2 -> L theta1 a b < L theta2 a b) /\
  continuity (fun theta => L theta a b).
Proof.
  destruct topology; simpl; intros [= <-].
  - split; [apply _spiral_length_angle_increasing
           | apply _spiral_length_angle_continuous].
  - split; [apply _spiral_length_inline_increasing
           | apply _spiral_length_inline_continuous].
  - split; [apply _spiral_length_inline_rel_increasing
           | apply _spiral_length_inline_rel_continuous].
  - split; [apply arc_length_increasing, Hb0
           | apply arc_length_continuous, Hb0].
  - split; [apply arc_length_increasing, Hb0
           | apply arc_length_continuous, Hb0].
  - split; [apply _spiral_length_angle_increasing
           | apply _spiral_length_angle_continuous].
Qed.

End LengthFunctions.

(** C7: for fixed [a > 0] and [b > 0] the arc length is strictly increasing
    in [theta] on [theta >= 0]; and so every variant's length function is
    strictly increasing and continuous there. *)
Theorem C7_arc_length_strictly_increasing (a b : R) :
  0 < a -> 0 < b ->
  (forall theta1 theta2,
      0 <= theta1 -> theta1 < theta2 ->
      _arc_length_integral theta1 a b < _arc_length_integral theta2 a b) /\
  (forall topology L,
      Spiral.length_fn (Spec.tag_of topology) = Ok L ->
      (forall theta1 theta2,
          0 <= theta1 -> theta1 < theta2 -> L theta1 a b < L theta2 a b) /\
      continuity (fun theta => L theta a b)).
Proof.
  intros _ Hb. split.
  - intros theta1 theta2 _ Hlt.
    apply arc_length_increasing; [apply Rgt_not_eq, Hb | exact Hlt].
  - intros topology L HL.
    destruct (length_fn_increasing_continuous a b Hb topology L HL)
      as [Hinc Hcont].
    split; [|exact Hcont].
    intros theta1 theta2 _. apply Hinc.
Qed.

Lemma C7_arc_length_strictly_increasing_witness :
  _arc_length_integral 1 70 2 < _arc_length_integral 3 70 2.
Proof.
  apply (C7_arc_length_strictly_increasing 70 2); lra.
Defined.

(** ** Tangent of one arm *)

Section Arm.

Variables a b max_theta min_theta theta_offset direction : R.

Let k := max_theta - min_theta.
Let th := fun t => min_theta + t * k.
Let r := fun t => a + b * th t.

Lemma r_derivative t : derivable_pt_lim r t (b * k).
Proof.
  apply derivable_pt_lim_eq with (d' := 0 + (0 * th t + b * k)); [ring|].
  apply derivable_pt_lim_plus with (f1 := fun _ => a) (f2 := fun t => b * th t).
  - apply derivable_pt_lim_const.
  - apply derivable_pt_lim_mult with (f1 := fun _ => b) (f2 := th).
    + apply derivable_pt_lim_const.
    + apply derivable_pt_lim_eq with (d' := k * 1); [ring|].
      unfold th. apply derivable_pt_lim_eq with (d' := k); [ring|].
      apply derivable_pt_lim_eq with (d' := 0 + (1 * k + t * 0)); [ring|].
      apply derivable_pt_lim_plus
        with (f1 := fun _ => min_theta) (f2 := fun t => t * k).
      * apply derivable_pt_lim_const.
      * apply derivable_pt_lim_mult with (f1 := fun t => t) (f2 := fun _ => k);
          [apply derivable_pt_lim_id | apply derivable_pt_lim_const].
Qed.

Lemma phase_derivative t :
  derivable_pt_lim (fun t => th t + theta_offset) t k.
Proof.
  apply derivable_pt_lim_eq with (d' := (0 + (1 * k + t * 0)) + 0); [ring|].
  apply derivable_pt_lim_plus with (f1 := th) (f2 := fun _ => theta_offset).
  - apply derivable_pt_lim_plus
      with (f1 := fun _ => min_theta) (f2 := fun t => t * k).
    + apply derivable_pt_lim_const.
    + apply derivable_pt_lim_mult with (f1 := fun t => t) (f2 := fun _ => k);
        [apply derivable_pt_lim_id | apply derivable_pt_lim_const].
  - apply derivable_pt_lim_const.
Qed.

(** The derivative of the position with respect to [t] is the value of
    [_d_spiral_out_path] plus the radial term [b (sin, - direction cos)],
    times [max_theta - min_theta]. *)
Lemma position_x_derivative (t : R) :
  derivable_pt_lim
    (fun t => fst (_spiral_out_path t a b max_theta min_theta
                     theta_offset direction)) t
    ((max_theta - min_theta) *
     (fst (_d_spiral_out_path t a b max_theta min_theta
             theta_offset direction) +
      b * sin (th t + theta_offset))).
Proof.
  apply derivable_pt_lim_eq
    with (d' := (b * k * sin (th t + theta_offset) +
                 r t * (cos (th t + theta_offset) * k)) + 0).
  { unfold _d_spiral_out_path, vscale, r, th, k. simpl. ring. }
  apply derivable_pt_lim_plus
    with (f1 := fun t => r t * sin (th t + theta_offset)) (f2 := fun _ => 0).
  - apply derivable_pt_lim_mult
      with (f1 := r) (f2 := fun t => sin (th t + theta_offset)).
    + apply r_derivative.
    + apply derivable_pt_lim_comp
        with (f1 := fun t => th t + theta_offset) (f2 := sin).
      * apply phase_derivative.
      * apply derivable_pt_lim_sin.
  - apply derivable_pt_lim_const.
Qed.

Lemma position_y_derivative (t : R) :
  derivable_pt_lim
    (fun t => snd (_spiral_out_path t a b max_theta min_theta
                     theta_offset direction)) t
    ((max_theta - min_theta) *
     (snd (_d_spiral_out_path t a b max_theta min_theta
             theta_offset direction) +
      b * (- direction * cos (th t + theta_offset)))).
Proof.
  apply derivable_pt_lim_eq
    with (d' := (b * k * (- direction * cos (th t + theta_offset)) +
                 r t * (0 * cos (th t + theta_offset) +
                        - direction * (- sin (th t + theta_offset) * k))) + 0).
  { unfold _d_spiral_out_path, vscale, r, th, k. simpl. ring. }
  apply derivable_pt_lim_plus
    with (f1 := fun t => r t * (- direction * cos (th t + theta_offset)))
         (f2 := fun _ => direction * a).
  - apply derivable_pt_lim_mult
      with (f1 := r) (f2 := fun t => - direction * cos (th t + theta_offset)).
    + apply r_derivative.
    + apply derivable_pt_lim_mult
        with (f1 := fun _ => - direction)
             (f2 := fun t => cos (th t + theta_offset)).
      * apply derivable_pt_lim_const.
      * apply derivable_pt_lim_comp
          with (f1 := fun t => th t + theta_offset) (f2 := cos).
        -- apply phase_derivative.
        -- apply derivable_pt_lim_cos.
  - apply derivable_pt_lim_const.
Qed.

End Arm.

(** C2, as the code has it: the tangent function returns
    [r(theta) (cos(theta + phi0), dir sin(theta + phi0))] with
    [theta = theta_min + t (theta_max - theta_min)] and
    [r(theta) = a + b theta]; the factor [theta_max - theta_min] is not
    applied, so the specification's tangent is that factor times the value
    returned. *)
Theorem C2_tangent_unscaled (t a b theta_max theta_min phi0 dir : R) :
  _d_spiral_out_path t a b theta_max theta_min phi0 dir =
    (let theta := theta_min + t * (theta_max - theta_min) in
     let r := a + b * theta in
     (r * cos (theta + phi0), r * (dir * sin (theta + phi0)))) /\
  Spec.tangent t a b theta_max theta_min phi0 dir =
    vscale (theta_max - theta_min)
      (_d_spiral_out_path t a b theta_max theta_min phi0 dir).
Proof. split; reflexivity. Qed.

(** C2, as stated, fails: at [t = 0] on an arm with [a = 70], [b = 2] wound
    from 0 to 10 the code returns [(70, 0)], the stated formula [(700, 0)]. *)
Lemma C2_tangent_counterexample :
  _d_spiral_out_path 0 70 2 10 0 0 1 <> Spec.tangent 0 70 2 10 0 0 1.
Proof.
  unfold _d_spiral_out_path, Spec.tangent, vscale. simpl.
  replace (0 + 0 * (10 - 0) + 0) with 0 by lra.
  rewrite cos_0, sin_0.
  intros H. apply (f_equal fst) in H. simpl in H. lra.
Qed.

(** ** Construction from a length *)

Lemma __init___no_InvalidParameterError (origin : vec)
  (angle width gap mbr theta : R) (ot wd : pyval) (sd : R) (sp : Z) :
  Spiral.__init__ origin angle width gap mbr theta ot wd sd sp
    <> Raise InvalidParameterError.
Proof.
  unfold Spiral.__init__.
  destruct (eq_str ot "inline" || eq_str ot "inline_rel"); [discriminate|].
  destruct (eq_str ot "opposite"); [discriminate|].
  destruct (eq_str ot "single_inside" || eq_str ot "single_outside");
    [discriminate|].
  destruct ot; discriminate.
Qed.

Lemma length_fn_no_InvalidParameterError (ot : pyval) :
  Spiral.length_fn ot <> Raise InvalidParameterError.
Proof.
  unfold Spiral.length_fn.
  destruct (eq_str ot "inline"); [discriminate|].
  destruct (eq_str ot "inline_rel"); [discriminate|].
  destruct (eq_str ot "opposite"); [discriminate|].
  destruct (eq_str ot "single_inside" || eq_str ot "single_outside");
    [discriminate|].
  destruct ot; discriminate.
Qed.

Lemma make_at_port_with_length_no_InvalidParameterError
  (fsolve : (R -> R) -> R -> R) (port : Port.t) (gap mbr target : R)
  (kw : Spiral.kwargs) :
  Spiral.make_at_port_with_length fsolve port gap mbr target kw
    <> Raise InvalidParameterError.
Proof.
  unfold Spiral.make_at_port_with_length.
  destruct (Spiral.length_fn _) as [L|e] eqn:HL; simpl.
  - apply __init___no_InvalidParameterError.
  - intros [= ->]. now apply (length_fn_no_InvalidParameterError _ HL).
Qed.

(** C3, as the code has it: the length-driven constructor validates none of
    its arguments.  For every variant and every target length, gap, width
    and bend radius, whatever their signs, it raises nothing and returns a
    spiral whose winding angle is what the root finder returned for that
    variant's length function. *)
Theorem C3_arguments_not_validated (fsolve : (R -> R) -> R -> R)
  (port : Port.t) (gap mbr target : R) (topology : Spec.OutputTopology)
  (wd : option pyval) (sd : option R) (sp : option Z) :
  exists L s,
    Spiral.length_fn (Spec.tag_of topology) = Ok L /\
    Spiral.make_at_port_with_length fsolve port gap mbr target
      {| Spiral.kw_output_type := Some (Spec.tag_of topology);
         Spiral.kw_winding_direction := wd;
         Spiral.kw_sample_distance := sd;
         Spiral.kw_sample_points := sp |} = Ok s /\
    Spiral.total_theta s =
      _spiral_theta fsolve target (Port.width port) gap mbr L /\
    Spiral.min_bend_radius s = mbr /\
    Spiral.gap s = gap.
Proof.
  destruct topology; do 2 eexists;
    (split; [reflexivity|]); (split; [reflexivity|]); simpl; auto.
Qed.

(** C3, as stated, fails: with width 1, gap 5, bend radius 35, the variant
    "opposite" and target length -1, nothing is raised. *)
Lemma C3_counterexample :
  ~ (forall (fsolve : (R -> R) -> R -> R) (port : Port.t)
       (gap mbr target : R) (topology : Spec.OutputTopology),
        target <= 0 \/ Port.width port + gap <= 0 \/ mbr <= 0 ->
        Spiral.make_at_port_with_length fsolve port gap mbr target
          {| Spiral.kw_output_type := Some (Spec.tag_of topology);
             Spiral.kw_winding_direction := None;
             Spiral.kw_sample_distance := None;
             Spiral.kw_sample_points := None |}
        = Raise InvalidParameterError).
Proof.
  intros H.
  specialize (H (fun _ x0 => x0) (Port.mk (0, 0) 0 1) 5 35 (-1)
                Spec.Opposite).
  assert (Hneg : -1 <= 0) by lra.
  exact (make_at_port_with_length_no_InvalidParameterError _ _ _ _ _ _
           (H (or_introl Hneg))).
Qed.

Lemma unnamed_eq_str (tag : pyval) :
  Spec.unnamed tag ->
  eq_str tag "inline" = false /\
  eq_str tag "inline_rel" = false /\
  eq_str tag "opposite" = false /\
  eq_str tag "single_inside" = false /\
  eq_str tag "single_outside" = false.
Proof.
  intros H. repeat split; apply eq_str_false, H; simpl; tauto.
Qed.

(** C4, as the code has it: a tag that is none of the five names is added to
    the winding angle as a number.  A number or a boolean is accepted as an
    angular offset; any other value makes that sum raise Python's
    [TypeError].  [InvalidParameterError] is never raised. *)
Theorem C4_unnamed_tag_numeric_fallback (fsolve : (R -> R) -> R -> R)
  (origin : vec) (angle width gap mbr theta target : R)
  (tag wd : pyval) (sd : R) (sp : Z) :
  Spec.unnamed tag ->
  let kw := {| Spiral.kw_output_type := Some tag;
               Spiral.kw_winding_direction := Some wd;
               Spiral.kw_sample_distance := Some sd;
               Spiral.kw_sample_points := Some sp |} in
  let port := Port.mk origin angle width in
  (forall phi, as_float tag = Ok phi ->
     (exists s,
        Spiral.__init__ origin angle width gap mbr theta tag wd sd sp = Ok s /\
        Spiral.out_theta s = theta + phi /\
        Spiral.output_type s = tag) /\
     (exists s,
        Spiral.make_at_port_with_length fsolve port gap mbr target kw = Ok s /\
        Spiral.total_theta s =
          _spiral_theta fsolve target width gap mbr
            (fun theta a b => _spiral_length_angle theta a b phi) /\
        Spiral.out_theta s = Spiral.total_theta s + phi)) /\
  (as_float tag = Raise TypeError ->
     Spiral.__init__ origin angle width gap mbr theta tag wd sd sp
       = Raise TypeError /\
     Spiral.make_at_port_with_length fsolve port gap mbr target kw
       = Raise TypeError) /\
  Spiral.__init__ origin angle width gap mbr theta tag wd sd sp
    <> Raise InvalidParameterError /\
  Spiral.make_at_port_with_length fsolve port gap mbr target kw
    <> Raise InvalidParameterError.
Proof.
  intros Hun kw port.
  destruct (unnamed_eq_str tag Hun) as (E1 & E2 & E3 & E4 & E5).
  assert (Hinit : forall th,
             Spiral.__init__ origin angle width gap mbr th tag wd sd sp =
             (out <- float_add th tag ;;
              Ok (Spiral.mk (Port.mk origin angle width) gap mbr th None sp sd
                    tag (if eq_str wd "left" then (-1)%Z else 1%Z) out))).
  { intros th. unfold Spiral.__init__. rewrite E1, E2, E3, E4, E5. reflexivity. }
  assert (Hlen : Spiral.length_fn tag =
                 (out_angle <- as_float tag ;;
                  Ok (fun theta a b =>
                        _spiral_length_angle theta a b out_angle))).
  { unfold Spiral.length_fn. rewrite E1, E2, E3, E4, E5. reflexivity. }
  split; [|split; [|split]].
  - intros phi Hphi. split.
    + rewrite Hinit. unfold float_add. rewrite Hphi. simpl.
      eexists. split; [reflexivity|]. simpl. auto.
    + unfold Spiral.make_at_port_with_length, Spiral.make_at_port, kw.
      simpl. rewrite Hlen, Hphi. simpl. rewrite Hinit.
      unfold float_add. rewrite Hphi. simpl.
      eexists. split; [reflexivity|]. simpl. auto.
  - intros Herr. split.
    + rewrite Hinit. unfold float_add. rewrite Herr. reflexivity.
    + unfold Spiral.make_at_port_with_length, kw. simpl.
      rewrite Hlen, Herr. reflexivity.
  - apply __init___no_InvalidParameterError.
  - apply make_at_port_with_length_no_InvalidParameterError.
Qed.

Lemma unnamed_Opposite_capitalised : Spec.unnamed (PyStr "Opposite").
Proof.
  intros s Hin. simpl in Hin.
  destruct Hin as [<-|[<-|[<-|[<-|[<-|[]]]]]]; discriminate.
Defined.

Lemma C4_unnamed_tag_numeric_fallback_witness :
  Spiral.__init__ (0, 0) 0 1 5 35 10 (PyStr "Opposite") (PyStr "right")
    0.5 100 = Raise TypeError.
Proof.
  exact (proj1 (proj1 (proj2
           (C4_unnamed_tag_numeric_fallback (fun _ x0 => x0) (0, 0) 0 1 5 35
              10 2000 (PyStr "Opposite") (PyStr "right") 0.5 100
              unnamed_Opposite_capitalised))
           eq_refl)).
Defined.

Lemma not_recognized_bool (b : bool) : ~ Spec.recognized (PyBool b).
Proof. intros [topology H]. destruct topology; discriminate. Qed.

Lemma not_recognized_Opposite_capitalised :
  ~ Spec.recognized (PyStr "Opposite").
Proof. intros [topology H]. destruct topology; discriminate. Qed.

(** C4, as stated, fails: the tag [True] is no variant, yet it is taken as
    the angular offset 1 and construction succeeds; the misspelt tag
    "Opposite" is stopped by a [TypeError] of the float addition, not by an
    [InvalidParameterError]. *)
Lemma C4_counterexample :
  (~ Spec.recognized (PyBool true) /\
   exists s,
     Spiral.__init__ (0, 0) 0 1 5 35 10 (PyBool true) (PyStr "right")
       0.5 100 = Ok s /\
     Spiral.out_theta s = 10 + 1) /\
  (~ Spec.recognized (PyStr "Opposite") /\
   Spiral.__init__ (0, 0) 0 1 5 35 10 (PyStr "Opposite") (PyStr "right")
     0.5 100 <> Raise InvalidParameterError).
Proof.
  split; split.
  - apply not_recognized_bool.
  - eexists. split; reflexivity.
  - apply not_recognized_Opposite_capitalised.
  - discriminate.
Qed.

(** ** The cached waveguide *)

Lemma modify_last (h : Store.t) (w : Waveguide.t)
  (f : Waveguide.t -> Waveguide.t) :
  Store.modify (h ++ [w]) (List.length h) f = h ++ [f w].
Proof.
  induction h as [|w' h IH]; simpl; [reflexivity|]. now rewrite IH.
Qed.

Lemma get_last (h : Store.t) (w : Waveguide.t) :
  Store.get (h ++ [w]) (List.length h) = Some w.
Proof.
  unfold Store.get. rewrite nth_error_app2 by lia.
  now rewrite Nat.sub_diag.
Qed.

Lemma on_wg_built_from (st st' : Spiral.state) (w : Waveguide.t)
  (f : Waveguide.t -> Waveguide.t) :
  Spiral.built_from st st' w ->
  Spiral.built_from st (Spiral.on_wg f st') (f w).
Proof.
  intros (Hstore & Hself & Hwrites). unfold Spiral.on_wg.
  rewrite Hself at 1. simpl.
  repeat split; simpl; try assumption.
  rewrite Hstore. apply modify_last.
Qed.

Lemma _generate_built_from (st : Spiral.state) :
  exists w, Spiral.built_from st (Spiral._generate st) w.
Proof.
  unfold Spiral._generate, Store.alloc.
  match goal with
  | |- context [Spiral.on_wg _ ?s] =>
      match s with
      | Spiral.mk_state _ _ _ =>
          assert (H0 : Spiral.built_from st s
                         (Waveguide.make_at_port
                            (Spiral._origin_port (Spiral.self st))))
            by (repeat split);
          generalize dependent s
      end
  end.
  intros st1 H1.
  repeat match goal with
         | |- context [if ?c then _ else _] => destruct c
         end;
    eexists; repeat apply on_wg_built_from; exact H1.
Qed.

Section Accessors.

Variable shape : Type.
Variable wg_length : Waveguide.t -> R.
Variable wg_current_port : Waveguide.t -> Port.t.
Variable wg_get_shapely_object : Waveguide.t -> shape.

Local Abbreviation access :=
  (Spiral.access shape wg_length wg_current_port wg_get_shapely_object).
Local Abbreviation run :=
  (Spiral.run shape wg_length wg_current_port wg_get_shapely_object).
Local Abbreviation cached_value :=
  (Spiral.cached_value shape wg_length wg_current_port wg_get_shapely_object).

(** Once [_wg] is set, an accessor reads and changes nothing. *)
Lemma access_cached (acc : Spiral.accessor) (st : Spiral.state)
  (l : Store.loc) (w : Waveguide.t) :
  Spiral._wg (Spiral.self st) = Some l ->
  Store.get (Spiral.store st) l = Some w ->
  access acc st = (cached_value l w acc, st).
Proof.
  intros Hwg Hget.
  destruct acc; unfold Spiral.access, Spiral.length, Spiral.out_port,
    Spiral.get_shapely_object, Spiral.wg, Spiral.getattr;
    rewrite Hwg; simpl; rewrite ?Hwg, ?Hget; reflexivity.
Qed.

(** While [_wg] is [None], an accessor first runs [_generate], once. *)
Lemma access_first (acc : Spiral.accessor) (st : Spiral.state) :
  Spiral._wg (Spiral.self st) = None ->
  exists w,
    Spiral.built_from st (Spiral._generate st) w /\
    access acc st =
      (cached_value (List.length (Spiral.store st)) w acc,
       Spiral._generate st).
Proof.
  intros Hwg.
  destruct (_generate_built_from st) as (w & Hb).
  exists w. split; [exact Hb|].
  destruct Hb as (Hstore & Hself & _).
  assert (Hget : Store.get (Spiral.store (Spiral._generate st))
                   (List.length (Spiral.store st)) = Some w)
    by (rewrite Hstore; apply get_last).
  destruct acc; unfold Spiral.access, Spiral.length, Spiral.out_port,
    Spiral.get_shapely_object, Spiral.wg, Spiral.getattr;
    rewrite Hwg; simpl; rewrite Hself; simpl; rewrite ?Hget; reflexivity.
Qed.

Lemma run_cached (calls : list Spiral.accessor) (st : Spiral.state)
  (l : Store.loc) (w : Waveguide.t) :
  Spiral._wg (Spiral.self st) = Some l ->
  Store.get (Spiral.store st) l = Some w ->
  run calls st = (map (cached_value l w) calls, st).
Proof.
  intros Hwg Hget. induction calls as [|acc calls IH]; simpl; [reflexivity|].
  rewrite (access_cached acc st l w Hwg Hget), IH. reflexivity.
Qed.

Lemma run_first (calls : list Spiral.accessor) (st : Spiral.state) :
  Spiral._wg (Spiral.self st) = None ->
  calls <> [] ->
  exists w,
    Spiral.built_from st (Spiral._generate st) w /\
    run calls st =
      (map (cached_value (List.length (Spiral.store st)) w) calls,
       Spiral._generate st).
Proof.
  intros Hwg Hne. destruct calls as [|acc calls]; [congruence|].
  destruct (access_first acc st Hwg) as (w & Hb & Hacc).
  exists w. split; [exact Hb|].
  simpl. rewrite Hacc.
  destruct Hb as (Hstore & Hself & _).
  rewrite (run_cached calls (Spiral._generate st)
             (List.length (Spiral.store st)) w).
  - reflexivity.
  - rewrite Hself. reflexivity.
  - rewrite Hstore. apply get_last.
Qed.

Lemma __init___wg_None (origin : vec) (angle width gap mbr theta : R)
  (ot wd : pyval) (sd : R) (sp : Z) (this : Spiral.t) :
  Spiral.__init__ origin angle width gap mbr theta ot wd sd sp = Ok this ->
  Spiral._wg this = None.
Proof.
  unfold Spiral.__init__.
  destruct (if _ : bool then _ else _) as [x|e]; simpl; [|discriminate].
  intros [= <-]. reflexivity.
Qed.

Lemma set__wg_None (this : Spiral.t) (r : option Store.loc) :
  Spiral._wg this = None ->
  Spiral.set__wg (Spiral.set__wg this r) None = this.
Proof. destruct this; simpl. intros ->. reflexivity. Qed.

(** C9: the constructor builds nothing; the first accessor called, whichever
    it is, runs [_generate] once; from then on every accessor returns what
    is read from that one waveguide and leaves the state as it is.  So
    [_wg] is assigned at most once, and the other attributes never
    change. *)
Theorem C9_lazy_cache (origin : vec) (angle width gap mbr theta : R)
  (ot wd : pyval) (sd : R) (sp : Z) (this : Spiral.t) (h : Store.t)
  (calls : list Spiral.accessor) :
  Spiral.__init__ origin angle width gap mbr theta ot wd sd sp = Ok this ->
  let st0 := Spiral.fresh h this in
  let vs := fst (run calls st0) in
  let st := snd (run calls st0) in
  Spiral._wg this = None /\
  (calls = [] -> st = st0) /\
  (calls <> [] ->
   exists w,
     st = Spiral._generate st0 /\
     Spiral.built_from st0 st w /\
     vs = map (cached_value (List.length h) w) calls) /\
  (Spiral.cache_writes st <= 1)%nat /\
  Spiral.set__wg (Spiral.self st) None = this.
Proof.
  intros Hinit st0 vs st.
  assert (Hnone : Spiral._wg this = None) by exact (__init___wg_None _ _ _ _ _ _ _ _ _ _ _ Hinit).
  split; [exact Hnone|].
  destruct calls as [|acc calls].
  - repeat split; try reflexivity.
    + congruence.
    + simpl. lia.
    + simpl. destruct this; simpl in *. now subst.
  - destruct (run_first (acc :: calls) st0 Hnone ltac:(discriminate))
      as (w & Hb & Hrun).
    assert (Est : st = Spiral._generate st0) by (unfold st; now rewrite Hrun).
    assert (Evs : vs = map (cached_value (List.length h) w) (acc :: calls))
      by (unfold vs; now rewrite Hrun).
    rewrite Est.
    destruct Hb as (Hstore & Hself & Hwrites).
    repeat split.
    + discriminate.
    + intros _. exists w. repeat split; assumption.
    + rewrite Hwrites. simpl. lia.
    + rewrite Hself. apply set__wg_None, Hnone.
Qed.

(** A caller may change the waveguide it was handed.  The spiral does not
    notice: [_wg] still refers to the same object, nothing is rebuilt, and
    the next accessor reads the changed waveguide. *)
Lemma wg_then_is_seen (f : Waveguide.t -> Waveguide.t)
  (acc : Spiral.accessor) (st : Spiral.state) (l : Store.loc)
  (w : Waveguide.t) :
  Spiral._wg (Spiral.self st) = Some l ->
  Store.get (Spiral.store st) l = Some w ->
  let st' := Spiral.wg_then f st in
  Spiral.self st' = Spiral.self st /\
  Spiral.cache_writes st' = Spiral.cache_writes st /\
  access acc st' = (cached_value l (f w) acc, st').
Proof.
  intros Hwg Hget st'.
  assert (E : st' = Spiral.mk_state (Store.modify (Spiral.store st) l f)
                      (Spiral.self st) (Spiral.cache_writes st)).
  { unfold st', Spiral.wg_then, Spiral.wg, Spiral.on_wg.
    rewrite Hwg. simpl. rewrite Hwg. reflexivity. }
  rewrite E. repeat split.
  apply access_cached; simpl; [exact Hwg|].
  clear E st' Hwg. unfold Store.get in *.
  revert l Hget. generalize (Spiral.store st) as h.
  induction h as [|w' h IH]; intros [|l] Hget; simpl in *;
    try discriminate.
  - now injection Hget as ->.
  - now apply IH.
Qed.

End Accessors.

Lemma C9_lazy_cache_witness :
  exists this,
    Spiral.__init__ (0, 0) 0 1 5 35 10 (PyStr "inline") (PyStr "right")
      0.5 100 = Ok this /\
    (Spiral.cache_writes
       (snd (Spiral.run unit (fun _ => 0%R) Waveguide.start_port
               (fun _ => tt)
               [Spiral.Alength; Spiral.Awg; Spiral.Aout_port]
               (Spiral.fresh [] this))) <= 1)%nat.
Proof.
  eexists. split; [reflexivity|].
  refine (proj1 (proj2 (proj2 (proj2
            (C9_lazy_cache unit (fun _ => 0) Waveguide.start_port
               (fun _ => tt) (0, 0) 0 1 5 35 10 (PyStr "inline")
               (PyStr "right") 0.5 100 _ []
               [Spiral.Alength; Spiral.Awg; Spiral.Aout_port] _))))).
  reflexivity.
Defined.

(** * Further properties *)

(** ** What [_generate] stores *)

Lemma on_wg_last (f : Waveguide.t -> Waveguide.t) (h : Store.t)
  (w : Waveguide.t) (this : Spiral.t) (n : nat) :
  Spiral._wg this = Some (List.length h) ->
  Spiral.on_wg f (Spiral.mk_state (h ++ [w]) this n) =
  Spiral.mk_state (h ++ [f w]) this n.
Proof.
  intros Hwg. unfold Spiral.on_wg. simpl. rewrite Hwg.
  now rewrite modify_last.
Qed.

Lemma _generate_realize (st : Spiral.state) :
  Spiral._generate st =
  Spiral.mk_state
    (Spiral.store st ++ [Layout.realize (Spiral.self st)])
    (Spiral.set__wg (Spiral.self st) (Some (List.length (Spiral.store st))))
    (S (Spiral.cache_writes st)).
Proof.
  unfold Spiral._generate, Layout.realize, Layout.a, Layout.b, Store.alloc.
  destruct (eq_str (Spiral.output_type (Spiral.self st)) "single_outside");
    destruct (eq_str (Spiral.output_type (Spiral.self st)) "single_inside");
    destruct (eq_str (Spiral.output_type (Spiral.self st)) "inline");
    destruct (eq_str (Spiral.output_type (Spiral.self st)) "inline_rel");
    cbn [negb andb orb];
    rewrite ?on_wg_last by reflexivity; reflexivity.
Qed.

Lemma _generate_get (h : Store.t) (this : Spiral.t) :
  Store.get (Spiral.store (Spiral._generate (Spiral.fresh h this)))
    (List.length h) = Some (Layout.realize this).
Proof. rewrite _generate_realize. simpl. apply get_last. Qed.

(** ** Arc length: derivative, bounds and roots *)

(** X1: for [b <> 0] the closed form of lines 15-16 is an antiderivative of
    the arc-length element [sqrt ((a + b theta)^2 + b^2)] of the spiral
    [r = a + b theta], and so is the definite arc length. *)
Theorem X1_arc_length_is_antiderivative (a b theta : R) :
  b <> 0 ->
  derivable_pt_lim (fun t => _arc_length_indefinite_integral t a b) theta
    (sqrt (Rsqr (a + b * theta) + Rsqr b)) /\
  derivable_pt_lim (fun t => _arc_length_integral t a b) theta
    (sqrt (Rsqr (a + b * theta) + Rsqr b)).
Proof.
  intros Hb. split.
  - apply indefinite_integral_derivative, Hb.
  - apply arc_length_derivative, Hb.
Qed.

Lemma X1_arc_length_is_antiderivative_witness :
  derivable_pt_lim (fun t => _arc_length_integral t 70 2) 1
    (sqrt (Rsqr (70 + 2 * 1) + Rsqr 2)).
Proof. apply (X1_arc_length_is_antiderivative 70 2 1). lra. Defined.

Section Growth.

Variables a b : R.
Hypothesis Hb : 0 < b.

Let Hb0 : b <> 0 := Rgt_not_eq _ _ Hb.

Lemma arc_length_element_bounds (theta : R) :
  0 <= a + b * theta ->
  a + b * theta <= sqrt (Rsqr (a + b * theta) + Rsqr b) <= a + b * theta + b.
Proof.
  intros Hu. set (u := a + b * theta) in *.
  split.
  - rewrite <- (sqrt_Rsqr u Hu) at 1. apply sqrt_le_1.
    + apply Rle_0_sqr.
    + assert (0 <= Rsqr u) by apply Rle_0_sqr.
      assert (0 <= Rsqr b) by apply Rle_0_sqr. lra.
    + assert (0 <= Rsqr b) by apply Rle_0_sqr. lra.
  - rewrite <- (sqrt_Rsqr (u + b)) by lra. apply sqrt_le_1.
    + assert (0 <= Rsqr u) by apply Rle_0_sqr.
      assert (0 <= Rsqr b) by apply Rle_0_sqr. lra.
    + apply Rle_0_sqr.
    + unfold Rsqr. assert (0 <= u * b) by (apply Rmult_le_pos; lra). lra.
Qed.

Lemma arc_length_element_ge_b (theta : R) :
  b <= sqrt (Rsqr (a + b * theta) + Rsqr b).
Proof.
  rewrite <- (sqrt_Rsqr b) at 1 by lra. apply sqrt_le_1.
  - apply Rle_0_sqr.
  - assert (0 <= Rsqr (a + b * theta)) by apply Rle_0_sqr.
    assert (0 <= Rsqr b) by apply Rle_0_sqr. lra.
  - assert (0 <= Rsqr (a + b * theta)) by apply Rle_0_sqr. lra.
Qed.

Lemma arc_length_growth (theta1 theta2 : R) :
  theta1 <= theta2 ->
  b * (theta2 - theta1) <=
  _arc_length_integral theta2 a b - _arc_length_integral theta1 a b.
Proof.
  intros [Hlt | ->]; [|lra].
  destruct (MVT_cor2 (fun theta => _arc_length_integral theta a b)
              (fun theta => sqrt (Rsqr (a + b * theta) + Rsqr b))
              theta1 theta2 Hlt
              (fun c _ => arc_length_derivative a b Hb0 c)) as (c & Hc & _).
  rewrite Hc. apply Rmult_le_compat_r; [lra|].
  apply arc_length_element_ge_b.
Qed.

Lemma mean_radius_derivative (theta : R) :
  derivable_pt_lim (fun t => a * t + b * (t * t) / 2) theta (a + b * theta).
Proof.
  apply derivable_pt_lim_eq
    with (d' := (0 * theta + a * 1) +
                ((0 * (theta * theta) + b * (1 * theta + theta * 1)) * / 2
                 + b * (theta * theta) * 0)).
  { field. }
  apply derivable_pt_lim_plus
    with (f1 := fun t => a * t) (f2 := fun t => b * (t * t) / 2).
  - apply derivable_pt_lim_mult with (f1 := fun _ => a) (f2 := fun t => t);
      [apply derivable_pt_lim_const | apply derivable_pt_lim_id].
  - apply derivable_pt_lim_mult
      with (f1 := fun t => b * (t * t)) (f2 := fun _ => / 2).
    + apply derivable_pt_lim_mult
        with (f1 := fun _ => b) (f2 := fun t => t * t).
      * apply derivable_pt_lim_const.
      * apply derivable_pt_lim_mult with (f1 := fun t => t) (f2 := fun t => t);
          apply derivable_pt_lim_id.
    + apply derivable_pt_lim_const.
Qed.

Lemma arc_length_bounds (theta : R) :
  0 <= a -> 0 <= theta ->
  a * theta + b * (theta * theta) / 2 <= _arc_length_integral theta a b
  <= a * theta + b * (theta * theta) / 2 + b * theta.
Proof.
  intros Ha [Hpos | <-].
  2:{ rewrite _arc_length_integral_0. lra. }
  pose (g := fun t => _arc_length_integral t a b - (a * t + b * (t * t) / 2)).
  pose (g' := fun t => sqrt (Rsqr (a + b * t) + Rsqr b) - (a + b * t)).
  assert (Hg : forall c, 0 <= c <= theta -> derivable_pt_lim g c (g' c)).
  { intros c _. unfold g, g'.
    apply derivable_pt_lim_minus
      with (f1 := fun t => _arc_length_integral t a b)
           (f2 := fun t => a * t + b * (t * t) / 2).
    - apply arc_length_derivative, Hb0.
    - apply mean_radius_derivative. }
  destruct (MVT_cor2 g g' 0 theta Hpos Hg) as (c & Hc & Hc').
  assert (Hu : 0 <= a + b * c).
  { assert (0 <= b * c) by (apply Rmult_le_pos; lra). lra. }
  destruct (arc_length_element_bounds c Hu) as [Hlo Hhi].
  unfold g, g' in Hc. rewrite _arc_length_integral_0 in Hc.
  assert (0 <= (sqrt (Rsqr (a + b * c) + Rsqr b) - (a + b * c)) * (theta - 0))
    by (apply Rmult_le_pos; lra).
  assert ((sqrt (Rsqr (a + b * c) + Rsqr b) - (a + b * c)) * (theta - 0)
          <= b * (theta - 0))
    by (apply Rmult_le_compat_r; lra).
  lra.
Qed.

End Growth.


Section Roots.

Variables a b : R.
Hypothesis Hb : 0 < b.

Lemma length_fn_growth (topology : Spec.OutputTopology)
  (L : R -> R -> R -> R) (theta : R) :
  Spiral.length_fn (Spec.tag_of topology) = Ok L ->
  0 <= theta ->
  b * theta <= L theta a b - L 0 a b.
Proof.
  intros HL Hth.
  assert (G := arc_length_growth a b Hb 0 theta Hth).
  assert (G' : forall delta,
             b * theta <= _arc_length_integral (theta + delta) a b -
                          _arc_length_integral (0 + delta) a b).
  { intros delta.
    assert (H := arc_length_growth a b Hb (0 + delta) (theta + delta)).
    replace (theta + delta - (0 + delta)) with theta in H by ring.
    apply H. lra. }
  assert (0 <= b * theta) by (apply Rmult_le_pos; lra).
  assert (G0 := G' 0). assert (G1 := G' (0.5 * PI)).
  destruct topology as [| | | | |phi]; simpl in HL; injection HL as <-;
    unfold _spiral_length_inline_rel, _spiral_length_inline,
      _spiral_length_angle;
    try lra.
  specialize (G' phi). lra.
Qed.

Lemma length_fn_root (topology : Spec.OutputTopology)
  (L : R -> R -> R -> R) (target : R) :
  Spiral.length_fn (Spec.tag_of topology) = Ok L ->
  L 0 a b <= target ->
  exists theta,
    0 <= theta /\ L theta a b = target /\
    forall theta', L theta' a b = target -> theta' = theta.
Proof.
  intros HL Htarget.
  destruct (length_fn_increasing_continuous a b Hb topology L HL)
    as [Hinc Hcont].
  set (y := (target - L 0 a b) / b).
  assert (Hy : 0 <= y).
  { unfold y. apply Rmult_le_pos; [lra|]. apply Rlt_le, Rinv_0_lt_compat, Hb. }
  assert (Hgrow := length_fn_growth topology L y HL Hy).
  assert (Eby : b * y = target - L 0 a b) by (unfold y; field; lra).
  assert (Hf : continuity (fun theta => L theta a b - target)).
  { apply continuity_minus
      with (f1 := fun theta => L theta a b) (f2 := fun _ => target).
    - exact Hcont.
    - apply continuity_const. intros x x'. reflexivity. }
  destruct (IVT_cor (fun theta => L theta a b - target) 0 y Hf Hy)
    as (theta & [Hlo Hhi] & Hroot).
  { assert (0 <= (target - L 0 a b) * (L y a b - target))
      by (apply Rmult_le_pos; lra).
    lra. }
  exists theta. split; [exact Hlo|]. split; [lra|].
  intros theta' H'.
  destruct (Rtotal_order theta' theta) as [Hlt | [Heq | Hgt]];
    [apply Hinc in Hlt | exact Heq | apply Hinc in Hgt]; lra.
Qed.

End Roots.

(** X2: for [a >= 0], [b > 0] and [theta >= 0] the arc length lies between
    the mean-radius estimate [a theta + b theta^2 / 2] and that estimate
    plus [b theta]. *)
Theorem X2_arc_length_bounds (a b theta : R) :
  0 <= a -> 0 < b -> 0 <= theta ->
  a * theta + b * (theta * theta) / 2 <= _arc_length_integral theta a b /\
  _arc_length_integral theta a b <=
    a * theta + b * (theta * theta) / 2 + b * theta.
Proof.
  intros Ha Hb Hth. exact (arc_length_bounds a b Hb theta Ha Hth).
Qed.

Lemma X2_arc_length_bounds_witness :
  70 * 10 + 2 * (10 * 10) / 2 <= _arc_length_integral 10 70 2 /\
  _arc_length_integral 10 70 2 <= 70 * 10 + 2 * (10 * 10) / 2 + 2 * 10.
Proof. apply (X2_arc_length_bounds 70 2 10); lra. Defined.

(** X3: for [b > 0], every variant's length function takes each value from
    its value at [theta = 0] upwards at exactly one angle, and that angle is
    not negative: the equation the root finder is given has one solution. *)
Theorem X3_length_fn_unique_root (a b target : R)
  (topology : Spec.OutputTopology) (L : R -> R -> R -> R) :
  0 < b ->
  Spiral.length_fn (Spec.tag_of topology) = Ok L ->
  L 0 a b <= target ->
  exists theta,
    0 <= theta /\ L theta a b = target /\
    forall theta', L theta' a b = target -> theta' = theta.
Proof.
  intros Hb HL Ht. exact (length_fn_root a b Hb topology L target HL Ht).
Qed.

Lemma X3_length_fn_unique_root_witness :
  exists theta,
    0 <= theta /\
    _arc_length_integral theta 70 2 = 2000 /\
    forall theta', _arc_length_integral theta' 70 2 = 2000 -> theta' = theta.
Proof.
  apply (X3_length_fn_unique_root 70 2 2000 Spec.SingleInside
           _arc_length_integral).
  - lra.
  - reflexivity.
  - rewrite _arc_length_integral_0. lra.
Defined.

Lemma make_at_port_with_length_shape (fsolve : (R -> R) -> R -> R)
  (port : Port.t) (gap mbr target : R) (topology : Spec.OutputTopology)
  (wd : option pyval) (sd : option R) (sp : option Z)
  (L : R -> R -> R -> R) (s : Spiral.t) :
  Spiral.length_fn (Spec.tag_of topology) = Ok L ->
  Spiral.make_at_port_with_length fsolve port gap mbr target
    {| Spiral.kw_output_type := Some (Spec.tag_of topology);
       Spiral.kw_winding_direction := wd;
       Spiral.kw_sample_distance := sd;
       Spiral.kw_sample_points := sp |} = Ok s ->
  Spiral.total_theta s =
    _spiral_theta fsolve target (Port.width port) gap mbr L /\
  Layout.a s = 2 * mbr /\
  Layout.b s = 2 * (Port.width port + gap) / (2 * PI).
Proof.
  intros HL Hmake.
  unfold Spiral.make_at_port_with_length in Hmake. simpl arg in Hmake.
  rewrite HL in Hmake. simpl bind in Hmake.
  unfold Spiral.make_at_port in Hmake. simpl arg in Hmake.
  destruct (__init___recognized (Port.origin port) (Port.angle port)
              (Port.width port) gap mbr
              (_spiral_theta fsolve target (Port.width port) gap mbr L)
              topology (arg Spiral.default_winding_direction wd)
              (arg Spiral.default_sample_distance sd)
              (arg Spiral.default_sample_points sp))
    as (s' & Hs' & _ & Htot & _).
  rewrite Hs' in Hmake. injection Hmake as <-.
  split; [exact Htot|].
  unfold Spiral.__init__ in Hs'.
  destruct (if _ : bool then _ else _) as [x|e]; simpl in Hs';
    [|discriminate].
  injection Hs' as <-. split; reflexivity.
Qed.

(** X4: when the width plus the gap is positive and the root finder returns
    a zero of the residual it was given, the spiral that
    [make_at_port_with_length] returns has the requested length under its
    variant's length function, evaluated with the [a] and [b] that
    [_generate] will use; and no other angle gives that length. *)
Theorem X4_length_round_trip (fsolve : (R -> R) -> R -> R) (port : Port.t)
  (gap mbr target : R) (topology : Spec.OutputTopology)
  (wd : option pyval) (sd : option R) (sp : option Z)
  (L : R -> R -> R -> R) (s : Spiral.t) :
  0 < Port.width port + gap ->
  Spiral.length_fn (Spec.tag_of topology) = Ok L ->
  L (_spiral_theta fsolve target (Port.width port) gap mbr L)
    (2 * mbr) (2 * (Port.width port + gap) / (2 * PI)) - target = 0 ->
  Spiral.make_at_port_with_length fsolve port gap mbr target
    {| Spiral.kw_output_type := Some (Spec.tag_of topology);
       Spiral.kw_winding_direction := wd;
       Spiral.kw_sample_distance := sd;
       Spiral.kw_sample_points := sp |} = Ok s ->
  L (Spiral.total_theta s) (Layout.a s) (Layout.b s) = target /\
  forall theta,
    L theta (Layout.a s) (Layout.b s) = target -> theta = Spiral.total_theta s.
Proof.
  intros Hw HL Hroot Hmake.
  assert (Hb : 0 < 2 * (Port.width port + gap) / (2 * PI)).
  { assert (Hpi := PI_RGT_0). apply Rmult_lt_0_compat; [lra|].
    apply Rinv_0_lt_compat. lra. }
  destruct (make_at_port_with_length_shape fsolve port gap mbr target
              topology wd sd sp L s HL Hmake) as (Htheta & Ha & Hbb).
  rewrite Ha, Hbb, Htheta.
  split; [lra|].
  intros theta Htheta'.
  destruct (length_fn_increasing_continuous (2 * mbr) _ Hb topology L HL)
    as [Hinc _].
  set (root := _spiral_theta fsolve target (Port.width port) gap mbr L) in *.
  destruct (Rtotal_order theta root) as [Hlt | [Heq | Hgt]];
    [apply Hinc in Hlt | exact Heq | apply Hinc in Hgt]; lra.
Qed.

Lemma X4_length_round_trip_witness :
  exists s,
    Spiral.make_at_port_with_length (fun _ x0 => x0) (Port.mk (0, 0) 0 1)
      5 35 (_arc_length_integral (20 * PI) (2 * 35) (2 * (1 + 5) / (2 * PI)))
      {| Spiral.kw_output_type := Some (PyStr "single_inside");
         Spiral.kw_winding_direction := None;
         Spiral.kw_sample_distance := None;
         Spiral.kw_sample_points := None |} = Ok s /\
    _arc_length_integral (Spiral.total_theta s) (Layout.a s) (Layout.b s) =
    _arc_length_integral (20 * PI) (2 * 35) (2 * (1 + 5) / (2 * PI)).
Proof.
  eexists. split; [reflexivity|].
  refine (proj1 (X4_length_round_trip (fun _ x0 => x0) (Port.mk (0, 0) 0 1)
                   5 35 _ Spec.SingleInside None None None
                   _arc_length_integral _ _ _ _ _)).
  - simpl. lra.
  - reflexivity.
  - unfold _spiral_theta. simpl. lra.
  - reflexivity.
Defined.

(** ** The sampled arm *)

Lemma sin2_cos2_mult (x : R) : sin x * sin x + cos x * cos x = 1.
Proof. exact (sin2_cos2 x). Qed.

(** X5: for a direction of [+1] or [-1], every point of the sampled arm lies
    at distance [|a + b theta|] from the centre [(0, direction a)]: the arm
    is the Archimedean spiral [r = a + b theta] around that centre. *)
Theorem X5_path_on_spiral (t a b max_theta min_theta theta_offset dir : R) :
  dir * dir = 1 ->
  Rsqr (fst (_spiral_out_path t a b max_theta min_theta theta_offset dir)) +
  Rsqr (snd (_spiral_out_path t a b max_theta min_theta theta_offset dir)
        - dir * a) =
  Rsqr (a + b * (min_theta + t * (max_theta - min_theta))).
Proof.
  intros Hdir. unfold _spiral_out_path, vadd, vscale, Rsqr. simpl.
  set (theta := min_theta + t * (max_theta - min_theta)).
  assert (H := sin2_cos2_mult (theta + theta_offset)).
  set (s := sin (theta + theta_offset)) in *.
  set (c := cos (theta + theta_offset)) in *.
  replace ((a + b * theta) * s + 0) with ((a + b * theta) * s) by ring.
  replace ((a + b * theta) * (- dir * c) + dir * a - dir * a)
    with (- dir * ((a + b * theta) * c)) by ring.
  transitivity ((a + b * theta) * (a + b * theta) *
                (s * s + dir * dir * (c * c))); [ring|].
  rewrite Hdir. replace (s * s + 1 * (c * c)) with 1 by lra. ring.
Qed.

Lemma X5_path_on_spiral_witness :
  Rsqr (fst (_spiral_out_path 1 70 2 10 0 0 (-1))) +
  Rsqr (snd (_spiral_out_path 1 70 2 10 0 0 (-1)) - -1 * 70) =
  Rsqr (70 + 2 * (0 + 1 * (10 - 0))).
Proof. apply (X5_path_on_spiral 1 70 2 10 0 0 (-1)). lra. Defined.

Lemma path_speed (t a b max_theta min_theta theta_offset dir : R) :
  dir * dir = 1 ->
  exists dx dy,
    derivable_pt_lim
      (fun t => fst (_spiral_out_path t a b max_theta min_theta
                       theta_offset dir)) t dx /\
    derivable_pt_lim
      (fun t => snd (_spiral_out_path t a b max_theta min_theta
                       theta_offset dir)) t dy /\
    Rsqr dx + Rsqr dy =
      Rsqr (max_theta - min_theta) *
      (Rsqr (a + b * (min_theta + t * (max_theta - min_theta))) + Rsqr b).
Proof.
  intros Hdir. do 2 eexists.
  split; [apply position_x_derivative|].
  split; [apply position_y_derivative|].
  unfold _d_spiral_out_path, vscale, Rsqr. simpl.
  set (theta := min_theta + t * (max_theta - min_theta)).
  assert (H := sin2_cos2_mult (theta + theta_offset)).
  set (s := sin (theta + theta_offset)) in *.
  set (c := cos (theta + theta_offset)) in *.
  set (k := max_theta - min_theta). set (r := a + b * theta).
  transitivity (k * k * ((r * r + b * b) * (c * c + dir * dir * (s * s))
                         + 2 * r * b * s * c * (1 - dir * dir)
                         + b * b * (s * s + dir * dir * (c * c)
                                    - (c * c + dir * dir * (s * s)))));
    [ring|].
  rewrite Hdir.
  replace (c * c + 1 * (s * s)) with 1 by lra.
  replace (s * s + 1 * (c * c)) with 1 by lra.
  ring.
Qed.

(** X6: for a direction of [+1] or [-1], the sampled arm is differentiable
    in [t] and its speed is [|max_theta - min_theta|] times the arc-length
    element [sqrt ((a + b theta)^2 + b^2)] that the length functions
    integrate. *)
Theorem X6_path_speed (t a b max_theta min_theta theta_offset dir : R) :
  dir * dir = 1 ->
  exists dx dy,
    derivable_pt_lim
      (fun t => fst (_spiral_out_path t a b max_theta min_theta
                       theta_offset dir)) t dx /\
    derivable_pt_lim
      (fun t => snd (_spiral_out_path t a b max_theta min_theta
                       theta_offset dir)) t dy /\
    Rsqr dx + Rsqr dy =
      Rsqr (max_theta - min_theta) *
      (Rsqr (a + b * (min_theta + t * (max_theta - min_theta))) + Rsqr b).
Proof.
  intros Hdir.
  exact (path_speed t a b max_theta min_theta theta_offset dir Hdir).
Qed.

Lemma X6_path_speed_witness :
  exists dx dy,
    derivable_pt_lim (fun t => fst (_spiral_out_path t 70 2 10 0 0 1)) 0 dx /\
    derivable_pt_lim (fun t => snd (_spiral_out_path t 70 2 10 0 0 1)) 0 dy /\
    Rsqr dx + Rsqr dy =
      Rsqr (10 - 0) * (Rsqr (70 + 2 * (0 + 0 * (10 - 0))) + Rsqr 2).
Proof. apply (X6_path_speed 0 70 2 10 0 0 1). lra. Defined.

(** X7: for a direction of [+1] or [-1], the value of [_d_spiral_out_path]
    and the derivative [(dx, dy)] of the position have inner product
    [(max_theta - min_theta) r^2] and cross product
    [- (max_theta - min_theta) direction b r]: the value handed over as the
    derivative is turned away from the true one by the angle whose tangent
    is [b / r], and is parallel to it only where [b r = 0]. *)
Theorem X7_tangent_deviation (t a b max_theta min_theta theta_offset dir : R) :
  dir * dir = 1 ->
  let tangent :=
    _d_spiral_out_path t a b max_theta min_theta theta_offset dir in
  let r := a + b * (min_theta + t * (max_theta - min_theta)) in
  exists dx dy,
    derivable_pt_lim
      (fun t => fst (_spiral_out_path t a b max_theta min_theta
                       theta_offset dir)) t dx /\
    derivable_pt_lim
      (fun t => snd (_spiral_out_path t a b max_theta min_theta
                       theta_offset dir)) t dy /\
    fst tangent * dx + snd tangent * dy = (max_theta - min_theta) * (r * r) /\
    fst tangent * dy - snd tangent * dx =
      - ((max_theta - min_theta) * dir * b * r).
Proof.
  intros Hdir tangent r. do 2 eexists.
  split; [apply position_x_derivative|].
  split; [apply position_y_derivative|].
  unfold tangent, r, _d_spiral_out_path, vscale. simpl.
  set (theta := min_theta + t * (max_theta - min_theta)).
  assert (H := sin2_cos2_mult (theta + theta_offset)).
  set (s := sin (theta + theta_offset)) in *.
  set (c := cos (theta + theta_offset)) in *.
  set (k := max_theta - min_theta). set (r0 := a + b * theta).
  split.
  - transitivity (k * (r0 * r0 * (c * c + dir * dir * (s * s))
                       + r0 * b * s * c * (1 - dir * dir))); [ring|].
    rewrite Hdir. replace (c * c + 1 * (s * s)) with 1 by lra. ring.
  - transitivity (- (k * dir * b * r0 * (c * c + s * s))
                  + k * r0 * r0 * dir * s * c * (1 - 1)); [ring|].
    replace (c * c + s * s) with 1 by lra. ring.
Qed.

Lemma X7_tangent_deviation_witness :
  exists dx dy,
    derivable_pt_lim (fun t => fst (_spiral_out_path t 70 2 10 0 0 1)) 0 dx /\
    derivable_pt_lim (fun t => snd (_spiral_out_path t 70 2 10 0 0 1)) 0 dy /\
    fst (_d_spiral_out_path 0 70 2 10 0 0 1) * dx +
    snd (_d_spiral_out_path 0 70 2 10 0 0 1) * dy =
      (10 - 0) * ((70 + 2 * (0 + 0 * (10 - 0))) *
                  (70 + 2 * (0 + 0 * (10 - 0)))) /\
    fst (_d_spiral_out_path 0 70 2 10 0 0 1) * dy -
    snd (_d_spiral_out_path 0 70 2 10 0 0 1) * dx =
      - ((10 - 0) * 1 * 2 * (70 + 2 * (0 + 0 * (10 - 0)))).
Proof. apply (X7_tangent_deviation 0 70 2 10 0 0 1). lra. Defined.

(** ** The generated layout *)

Lemma __init___fields (origin : vec) (angle width gap mbr theta : R)
  (ot wd : pyval) (sd : R) (sp : Z) (this : Spiral.t) :
  Spiral.__init__ origin angle width gap mbr theta ot wd sd sp = Ok this ->
  exists out,
    this =
    Spiral.mk (Port.mk origin angle width) gap mbr theta None sp sd ot
      (if eq_str wd "left" then (-1)%Z else 1%Z) out.
Proof.
  unfold Spiral.__init__.
  destruct (if _ : bool then _ else _) as [x|e]; simpl; [|discriminate].
  intros [= <-]. now exists x.
Qed.

Ltac layout_cases ot :=
  unfold Layout.realize; cbn [Spiral.output_type];
  destruct (eq_str ot "single_outside");
  destruct (eq_str ot "single_inside");
  destruct (eq_str ot "inline");
  destruct (eq_str ot "inline_rel");
  cbn [negb andb orb].

Ltac vec_eq :=
  unfold Layout.mirror, _spiral_out_path, _d_spiral_out_path,
    vsub, vneg, vadd, vscale;
  cbn [fst snd]; f_equal; ring.

(** X8: two spirals built from the same arguments, one wound to the left and
    one to the right, generate waveguides that mirror each other segment by
    segment: straight segments are equal, bends turn the other way, and
    the paths and tangents of the arms are reflected about the axis the
    path starts along. *)
Theorem X8_generate_mirror (origin : vec) (angle width gap mbr theta : R)
  (ot wd : pyval) (sd : R) (sp : Z) (left right : Spiral.t) (h : Store.t) :
  wd <> PyStr "left" ->
  Spiral.__init__ origin angle width gap mbr theta ot (PyStr "left") sd sp
    = Ok left ->
  Spiral.__init__ origin angle width gap mbr theta ot wd sd sp = Ok right ->
  exists wl wr,
    Store.get (Spiral.store (Spiral._generate (Spiral.fresh h left)))
      (List.length h) = Some wl /\
    Store.get (Spiral.store (Spiral._generate (Spiral.fresh h right)))
      (List.length h) = Some wr /\
    Waveguide.start_port wl = Waveguide.start_port wr /\
    Forall2 Layout.mirrored (Waveguide.segments wr) (Waveguide.segments wl).
Proof.
  intros Hwd Hl Hr.
  exists (Layout.realize left), (Layout.realize right).
  split; [apply _generate_get|]. split; [apply _generate_get|].
  unfold Spiral.__init__ in Hl, Hr.
  rewrite (eq_str_false _ _ Hwd) in Hr. simpl (eq_str (PyStr "left") _) in Hl.
  destruct (if _ : bool then _ else _) as [out|e]; simpl in Hl, Hr;
    [|discriminate].
  injection Hl as <-. injection Hr as <-.
  split.
  - unfold Layout.realize; cbn [Spiral.output_type];
      destruct (eq_str ot "single_outside");
      destruct (eq_str ot "single_inside");
      destruct (eq_str ot "inline");
      destruct (eq_str ot "inline_rel"); reflexivity.
  - layout_cases ot;
      unfold Layout.a, Layout.b, Spiral.width;
      cbn [Waveguide.segments Waveguide.add_parameterized_path
           Waveguide.add_bend Waveguide.add_straight_segment Waveguide.add
           Waveguide.make_at_port app Spiral.min_bend_radius Spiral.gap
           Spiral._origin_port Spiral.total_theta Spiral.out_theta
           Spiral.sample_distance Spiral.sample_points
           Spiral.winding_direction Port.width];
      repeat (apply Forall2_cons); try apply Forall2_nil;
      cbn [Layout.mirrored];
      repeat split; try (intros x; vec_eq); try ring.
Qed.

Lemma X8_generate_mirror_witness :
  exists left right,
    Spiral.__init__ (0, 0) 0 1 5 35 10 (PyStr "inline") (PyStr "left")
      0.5 100 = Ok left /\
    Spiral.__init__ (0, 0) 0 1 5 35 10 (PyStr "inline") (PyStr "right")
      0.5 100 = Ok right /\
    exists wl wr,
      Store.get (Spiral.store (Spiral._generate (Spiral.fresh [] left)))
        (List.length (@nil Waveguide.t)) = Some wl /\
      Store.get (Spiral.store (Spiral._generate (Spiral.fresh [] right)))
        (List.length (@nil Waveguide.t)) = Some wr /\
      Waveguide.start_port wl = Waveguide.start_port wr /\
      Forall2 Layout.mirrored (Waveguide.segments wr) (Waveguide.segments wl).
Proof.
  do 2 eexists. split; [reflexivity|]. split; [reflexivity|].
  apply (X8_generate_mirror (0, 0) 0 1 5 35 10 (PyStr "inline")
           (PyStr "right") 0.5 100 _ _ []).
  - discriminate.
  - reflexivity.
  - reflexivity.
Defined.

(** X9: the segments [_generate] emits, by variant.  The single variants
    give one arm and nothing else; Opposite and a numeric offset give an
    arm, the two half-turn bends of radius [min_bend_radius] (first against,
    then with the winding direction) and the second arm; Inline and
    InlineRelative add a straight segment of length
    [a + b theta - min_bend_radius] and a quarter bend against the winding
    direction.  The waveguide starts at the port the spiral was given. *)
Theorem X9_generated_segments (origin : vec) (angle width gap mbr theta : R)
  (topology : Spec.OutputTopology) (wd : pyval) (sd : R) (sp : Z)
  (this : Spiral.t) (h : Store.t) :
  Spiral.__init__ origin angle width gap mbr theta (Spec.tag_of topology)
    wd sd sp = Ok this ->
  exists w,
    Store.get (Spiral.store (Spiral._generate (Spiral.fresh h this)))
      (List.length h) = Some w /\
    Waveguide.start_port w = Port.mk origin angle width /\
    map Layout.kind_of (Waveguide.segments w) =
      let dir := IZR (Spiral.winding_direction this) in
      let arm := Layout.Arm sd sp in
      let centre := [Layout.Arc (- dir * PI) mbr; Layout.Arc (dir * PI) mbr] in
      match topology with
      | Spec.SingleInside | Spec.SingleOutside => [arm]
      | Spec.Opposite | Spec.AngleOffset _ => arm :: centre ++ [arm]
      | Spec.Inline | Spec.InlineRelative =>
          arm :: centre ++
          [arm;
           Layout.Straight (Layout.a this + Layout.b this * theta - mbr);
           Layout.Arc (- 0.5 * dir * PI) mbr]
      end.
Proof.
  intros Hinit. exists (Layout.realize this).
  split; [apply _generate_get|].
  destruct (__init___fields _ _ _ _ _ _ _ _ _ _ _ Hinit) as (out & ->).
  destruct topology; split; reflexivity.
Qed.

Lemma X9_generated_segments_witness :
  exists this w,
    Spiral.__init__ (0, 0) 0 1 5 35 10 (PyStr "single_inside")
      (PyStr "right") 0.5 100 = Ok this /\
    Store.get (Spiral.store (Spiral._generate (Spiral.fresh [] this)))
      (List.length (@nil Waveguide.t)) = Some w /\
    map Layout.kind_of (Waveguide.segments w) = [Layout.Arm 0.5 100].
Proof.
  eexists.
  destruct (X9_generated_segments (0, 0) 0 1 5 35 10 Spec.SingleInside
              (PyStr "right") 0.5 100 _ [] eq_refl) as (w & Hget & _ & Hk).
  exists w. split; [reflexivity|]. split; [exact Hget | exact Hk].
Defined.





(** ** Sharing the waveguide *)

(** X12: a caller that applies a change to the waveguide returned by [wg]
    changes the object the spiral keeps: [_generate] has run once, [_wg]
    still refers to the same object, and every accessor called afterwards
    reads the changed waveguide, not the one [_generate] built. *)
Theorem X12_caller_changes_are_seen (shape : Type)
  (wg_length : Waveguide.t -> R) (wg_current_port : Waveguide.t -> Port.t)
  (wg_get_shapely_object : Waveguide.t -> shape)
  (origin : vec) (angle width gap mbr theta : R) (ot wd : pyval)
  (sd : R) (sp : Z) (this : Spiral.t) (h : Store.t)
  (f : Waveguide.t -> Waveguide.t) (acc : Spiral.accessor) :
  Spiral.__init__ origin angle width gap mbr theta ot wd sd sp = Ok this ->
  let st := Spiral.wg_then f (Spiral.fresh h this) in
  exists w,
    Store.get (Spiral.store (Spiral._generate (Spiral.fresh h this)))
      (List.length h) = Some w /\
    Spiral.cache_writes st = 1%nat /\
    Spiral._wg (Spiral.self st) = Some (List.length h) /\
    Store.get (Spiral.store st) (List.length h) = Some (f w) /\
    Spiral.access shape wg_length wg_current_port wg_get_shapely_object
      acc st =
    (Spiral.cached_value shape wg_length wg_current_port
       wg_get_shapely_object (List.length h) (f w) acc, st).
Proof.
  intros Hinit st.
  assert (Hnone := __init___wg_None _ _ _ _ _ _ _ _ _ _ _ Hinit).
  exists (Layout.realize this). split; [apply _generate_get|].
  assert (E : st = Spiral.mk_state (h ++ [f (Layout.realize this)])
                     (Spiral.set__wg this (Some (List.length h))) 1).
  { unfold st, Spiral.wg_then, Spiral.wg. simpl. rewrite Hnone. simpl.
    rewrite _generate_realize. simpl.
    now rewrite on_wg_last by reflexivity. }
  rewrite E. simpl.
  split; [reflexivity|]. split; [reflexivity|].
  split; [apply get_last|].
  apply access_cached; simpl; [reflexivity | apply get_last].
Qed.

Lemma X12_caller_changes_are_seen_witness :
  exists this w,
    Spiral.__init__ (0, 0) 0 1 5 35 10 (PyStr "opposite") (PyStr "right")
      0.5 100 = Ok this /\
    Store.get (Spiral.store (Spiral._generate (Spiral.fresh [] this)))
      (List.length (@nil Waveguide.t)) = Some w /\
    Store.get
      (Spiral.store
         (Spiral.wg_then (Waveguide.add_straight_segment 30)
            (Spiral.fresh [] this)))
      (List.length (@nil Waveguide.t)) =
    Some (Waveguide.add_straight_segment 30 w).
Proof.
  eexists.
  destruct (X12_caller_changes_are_seen unit (fun _ => 0)
              Waveguide.start_port (fun _ => tt) (0, 0) 0 1 5 35 10
              (PyStr "opposite") (PyStr "right") 0.5 100 _ []
              (Waveguide.add_straight_segment 30) Spiral.Alength eq_refl)
    as (w & Hget & _ & _ & Hget' & _).
  exists w. split; [reflexivity|]. split; [exact Hget | exact Hget'].
Defined.

(** ** Targets below the shortest spiral, and the length of an arm *)

Lemma length_fn_growth_between (a b : R) (topology : Spec.OutputTopology)
  (L : R -> R -> R -> R) (theta1 theta2 : R) :
  0 < b ->
  Spiral.length_fn (Spec.tag_of topology) = Ok L ->
  theta1 <= theta2 ->
  b * (theta2 - theta1) <= L theta2 a b - L theta1 a b.
Proof.
  intros Hb HL Hle.
  assert (G : forall delta,
             b * (theta2 - theta1) <=
             _arc_length_integral (theta2 + delta) a b -
             _arc_length_integral (theta1 + delta) a b).
  { intros delta.
    assert (H := arc_length_growth a b Hb (theta1 + delta) (theta2 + delta)).
    replace (theta2 + delta - (theta1 + delta)) with (theta2 - theta1)
      in H by ring.
    apply H. lra. }
  assert (G' := arc_length_growth a b Hb theta1 theta2 Hle).
  assert (0 <= b * (theta2 - theta1)) by (apply Rmult_le_pos; lra).
  assert (G0 := G 0). assert (G1 := G (0.5 * PI)).
  destruct topology as [| | | | |phi]; simpl in HL; injection HL as <-;
    unfold _spiral_length_inline_rel, _spiral_length_inline,
      _spiral_length_angle;
    try lra.
  specialize (G phi). lra.
Qed.

(** X13: for [b > 0], a target below a variant's length at [theta = 0]
    (a target of zero or less among them, for the single variants) is still
    reached at exactly one angle, and that angle is negative. *)
Theorem X13_short_target_negative_angle (a b target : R)
  (topology : Spec.OutputTopology) (L : R -> R -> R -> R) :
  0 < b ->
  Spiral.length_fn (Spec.tag_of topology) = Ok L ->
  target < L 0 a b ->
  exists theta,
    theta < 0 /\ L theta a b = target /\
    forall theta', L theta' a b = target -> theta' = theta.
Proof.
  intros Hb HL Htarget.
  destruct (length_fn_increasing_continuous a b Hb topology L HL)
    as [Hinc Hcont].
  set (y := (target - L 0 a b) / b).
  assert (Eby : b * y = target - L 0 a b) by (unfold y; field; lra).
  assert (Hy : y < 0).
  { apply Rmult_lt_reg_l with b; [exact Hb|]. lra. }
  assert (Hgrow := length_fn_growth_between a b topology L y 0 Hb HL
                     (Rlt_le _ _ Hy)).
  assert (Hf : continuity (fun theta => L theta a b - target)).
  { apply continuity_minus
      with (f1 := fun theta => L theta a b) (f2 := fun _ => target).
    - exact Hcont.
    - apply continuity_const. intros x x'. reflexivity. }
  destruct (IVT_cor (fun theta => L theta a b - target) y 0 Hf
              (Rlt_le _ _ Hy))
    as (theta & [Hlo Hhi] & Hroot).
  { assert (0 <= (target - L y a b) * (L 0 a b - target))
      by (apply Rmult_le_pos; lra).
    lra. }
  exists theta. split; [|split; [lra|]].
  - destruct Hhi as [Hlt | ->]; [exact Hlt | lra].
  - intros theta' H'.
    destruct (Rtotal_order theta' theta) as [Hlt | [Heq | Hgt]];
      [apply Hinc in Hlt | exact Heq | apply Hinc in Hgt]; lra.
Qed.

Lemma X13_short_target_negative_angle_witness :
  exists theta,
    theta < 0 /\
    _arc_length_integral theta 70 2 = -1 /\
    forall theta', _arc_length_integral theta' 70 2 = -1 -> theta' = theta.
Proof.
  apply (X13_short_target_negative_angle 70 2 (-1) Spec.SingleInside
           _arc_length_integral).
  - lra.
  - reflexivity.
  - rewrite _arc_length_integral_0. lra.
Defined.

(** X14: for [b <> 0] and a direction of [+1] or [-1], the arc length of
    the angle reached at [t] grows along the sampled arm at exactly the
    speed of the arm: its derivative in [t] squared is the squared norm of
    the derivative of the position, and it is not negative when
    [min_theta <= max_theta]. *)
Theorem X14_arc_length_measures_arm
  (t a b max_theta min_theta theta_offset dir : R) :
  b <> 0 ->
  dir * dir = 1 ->
  exists dx dy ds,
    derivable_pt_lim
      (fun t => fst (_spiral_out_path t a b max_theta min_theta
                       theta_offset dir)) t dx /\
    derivable_pt_lim
      (fun t => snd (_spiral_out_path t a b max_theta min_theta
                       theta_offset dir)) t dy /\
    derivable_pt_lim
      (fun t => _arc_length_integral
                  (min_theta + t * (max_theta - min_theta)) a b) t ds /\
    Rsqr ds = Rsqr dx + Rsqr dy /\
    (min_theta <= max_theta -> 0 <= ds).
Proof.
  intros Hb Hdir.
  destruct (path_speed t a b max_theta min_theta theta_offset dir Hdir)
    as (dx & dy & Hx & Hy & Hnorm).
  exists dx, dy.
  set (theta := min_theta + t * (max_theta - min_theta)) in *.
  exists (sqrt (Rsqr (a + b * theta) + Rsqr b) * (max_theta - min_theta)).
  split; [exact Hx|]. split; [exact Hy|]. split; [|split].
  - apply derivable_pt_lim_comp
      with (f1 := fun t => min_theta + t * (max_theta - min_theta))
           (f2 := fun theta => _arc_length_integral theta a b).
    + apply derivable_pt_lim_eq
        with (d' := 0 + (1 * (max_theta - min_theta) + t * 0)); [ring|].
      apply derivable_pt_lim_plus
        with (f1 := fun _ => min_theta)
             (f2 := fun t => t * (max_theta - min_theta)).
      * apply derivable_pt_lim_const.
      * apply derivable_pt_lim_mult
          with (f1 := fun t => t) (f2 := fun _ => max_theta - min_theta);
          [apply derivable_pt_lim_id | apply derivable_pt_lim_const].
    + apply arc_length_derivative, Hb.
  - rewrite Hnorm. rewrite Rsqr_mult, Rsqr_sqrt; [ring|].
    assert (0 <= Rsqr (a + b * theta)) by apply Rle_0_sqr.
    assert (0 <= Rsqr b) by apply Rle_0_sqr. lra.
  - intros Hle. apply Rmult_le_pos; [apply sqrt_pos | lra].
Qed.

Lemma X14_arc_length_measures_arm_witness :
  exists dx dy ds,
    derivable_pt_lim (fun t => fst (_spiral_out_path t 70 2 10 0 0 1)) 0 dx /\
    derivable_pt_lim (fun t => snd (_spiral_out_path t 70 2 10 0 0 1)) 0 dy /\
    derivable_pt_lim
      (fun t => _arc_length_integral (0 + t * (10 - 0)) 70 2) 0 ds /\
    Rsqr ds = Rsqr dx + Rsqr dy /\
    (0 <= 10 -> 0 <= ds).
Proof. apply (X14_arc_length_measures_arm 0 70 2 10 0 0 1); lra. Defined.
